(** * A caching proxy in front of a key-value server (proxy.py)

    Shallow embedding of proxy.py.  The proxy reads one command per client
    connection, answers GET from a time-bounded cache when it can, and
    otherwise relays the command line to the backend server.

    Sockets and the cache are collaborators of the dispatcher: every call
    the proxy makes on them is recorded, in program order, in a trace, and
    Python exceptions are an explicit outcome next to normal return. *)

From Stdlib Require Import ZArith Ascii String List Bool Lia.
From stdpp Require Import gmap strings list.

Local Open Scope Z_scope.

(** ** Python string primitives *)

Module Py.

Definition LF : ascii := "010"%char.

(** The one-character string ['\n']. *)
Definition NL : string := String LF EmptyString.

Fixpoint in_chars (a : ascii) (chars : string) : bool :=
  match chars with
  | EmptyString => false
  | String c rest => Ascii.eqb a c || in_chars a rest
  end.

(** [s.lstrip(chars)] *)
Fixpoint lstrip (chars s : string) : string :=
  match s with
  | EmptyString => EmptyString
  | String a rest => if in_chars a chars then lstrip chars rest else s
  end.

(** [s.rstrip(chars)] *)
Fixpoint rstrip (chars s : string) : string :=
  match s with
  | EmptyString => EmptyString
  | String a rest =>
      match rstrip chars rest with
      | EmptyString =>
          if in_chars a chars then EmptyString else String a EmptyString
      | kept => String a kept
      end
  end.

(** [s.strip(chars)]: leading and trailing characters of [chars] go. *)
Definition strip (chars s : string) : string := rstrip chars (lstrip chars s).

(** The characters [str.strip()] removes when called without argument. *)
Definition whitespace : string :=
  String " "%char (String "009"%char (String "010"%char
    (String "011"%char (String "012"%char (String "013"%char EmptyString))))).

(** [s.split(sep)] for a one-character separator: always at least one
    field, empty fields are kept. *)
Fixpoint split (sep : ascii) (s : string) : list string :=
  match s with
  | EmptyString => [EmptyString]
  | String a rest =>
      if Ascii.eqb a sep then EmptyString :: split sep rest
      else match split sep rest with
           | field :: fields => String a field :: fields
           | [] => [String a EmptyString]
           end
  end.

(** [sep.join(fields)] *)
Fixpoint join (sep : string) (fields : list string) : string :=
  match fields with
  | [] => EmptyString
  | [f] => f
  | f :: rest => f +:+ sep +:+ join sep rest
  end.

Definition first_char (s : string) : option ascii :=
  match s with
  | EmptyString => None
  | String a _ => Some a
  end.

Fixpoint last_char (s : string) : option ascii :=
  match s with
  | EmptyString => None
  | String a EmptyString => Some a
  | String _ rest => last_char rest
  end.

(** Every character of [s] is one of [chars]. *)
Fixpoint all_in (chars s : string) : bool :=
  match s with
  | EmptyString => true
  | String a rest => in_chars a chars && all_in chars rest
  end.

(** Every byte is below 128.  Under Python 2.7, which proxy.py targets,
    [str.encode()] first decodes its receiver as ASCII. *)
Definition is_ascii (s : string) : bool :=
  forallb (fun a => (nat_of_ascii a <? 128)%nat) (list_ascii_of_string s).

End Py.

(** ** The library module

    proxy.py imports [library], which is not part of the sources at hand. *)

Module library.

Record CacheEntry := { value : string; writtenAt : Z }.

(** Modelled from the spec: the class [library.KeyValueStore] is missing;
    section 3 gives it as a mapping from key to (value, last-write
    timestamp).  Clock readings are whole seconds. *)
Abbreviation KeyValueStore := (gmap string CacheEntry).

(** Modelled from the spec: [KeyValueStore.StoreValue] is missing; section
    4.1: unconditionally overwrites any entry for the key with the given
    value and the current timestamp. *)
Definition StoreValue (key val : string) (now : Z)
    (db : KeyValueStore) : KeyValueStore :=
  <[key := {| value := val; writtenAt := now |}]> db.

(** Modelled from the spec: [KeyValueStore.GetValue] is missing; section
    4.1: the stored value if an entry exists and
    [now - writtenAt <= maxAge], otherwise a miss.  The miss is Python's
    [None], here the [None] of [option]. *)
Definition GetValue (key : string) (maxAge now : Z)
    (db : KeyValueStore) : option string :=
  match db !! key with
  | Some e => if now - writtenAt e <=? maxAge then Some (value e) else None
  | None => None
  end.

(** Modelled from the spec: [library.ParseCommand] is missing; section 6
    gives the request line as [VERB KEY [PAYLOAD...]], tokens separated by
    single spaces, all tokens after the key rejoined as the payload.  The
    line terminator and surrounding blanks are trimmed first; a missing
    part is the empty string. *)
Definition ParseCommand (command : string) : string * string * string :=
  match Py.split " "%char (Py.strip Py.whitespace command) with
  | [] => (EmptyString, EmptyString, EmptyString)
  | [cmd] => (cmd, EmptyString, EmptyString)
  | cmd :: arg1 :: remainder => (cmd, arg1, Py.join " " remainder)
  end.

End library.

Import library.

(** ** Module constants of proxy.py *)

Definition SERVER_ADDRESS : string := "localhost".
Definition SERVER_PORT : Z := 7777.
Definition LISTENING_PORT : Z := 8888.
Definition MAX_CACHE_AGE_SEC : Z := 60.

(** The reply with which the backend signals an absent key. *)
Definition KEY_ABSENT : string := "Key does not exist!".

(** ** Effects *)

(** Calls on the collaborators, as they happen. *)
Inductive event :=
| SockOpen                                  (* socket.socket(AF_INET, SOCK_STREAM) *)
| SockConnect (addr : string) (port : Z)    (* sock.connect((addr, port)) *)
| SockSendAll (data : string)               (* sock.sendall(data) *)
| SockReadCommand                           (* library.ReadCommand(sock) *)
| SockClose                                 (* sock.close() on the backend socket *)
| CacheGet (key : string)                   (* cache.GetValue(key, ...) *)
| CacheStore (key val : string)             (* cache.StoreValue(key, val) *)
| ClientSend (data : string)                (* sock.send(data) on the client socket *)
| Accepted                                  (* library.ConnectClientToServer *)
| ClientClose.                              (* client_sock.close() *)

Inductive exn :=
| SocketError
| UnicodeDecodeError
| NameError (name : string).

Inductive outcome (A : Type) :=
| Returns (a : A)
| Raises (e : exn).
Arguments Returns {A} a.
Arguments Raises {A} e.

(** What the backend does during one connection of the proxy to it. *)
Record backend := {
  accepts : bool;             (* connect succeeds *)
  receives : bool;            (* sendall succeeds *)
  responds : option string    (* what ReadCommand returns; None: it raises *)
}.

(** What the client socket does with the [send] calls made on it while one
    connection is handled: [sock n] tells whether the call that comes after
    [n] earlier ones succeeds; otherwise it raises. *)
Definition client_socket : Type := nat -> bool.

Record world := { cache : KeyValueStore; trace : list event }.

(** The data of the [send] calls made on the client socket, in order. *)
Fixpoint client_lines (tr : list event) : list string :=
  match tr with
  | [] => []
  | ClientSend data :: rest => data :: client_lines rest
  | _ :: rest => client_lines rest
  end.

(** A computation changes the world and returns or raises; the world as it
    is when an exception is raised is kept. *)
Definition M (A : Type) : Type := world -> outcome A * world.

Definition ret {A} (a : A) : M A := fun w => (Returns a, w).

Definition raise {A} (e : exn) : M A := fun w => (Raises e, w).

Definition bind {A B} (m : M A) (k : A -> M B) : M B :=
  fun w =>
    match m w with
    | (Returns a, w') => k a w'
    | (Raises e, w') => (Raises e, w')
    end.

Notation "x <- m ;; k" := (bind m (fun x => k))
  (at level 100, m at next level, right associativity).
Notation "m ;;; k" := (bind m (fun _ => k))
  (at level 100, right associativity).

(** [try: body finally: cleanup] *)
Definition try_finally {A} (body : M A) (cleanup : M unit) : M A :=
  fun w =>
    let (r, w1) := body w in
    match cleanup w1 with
    | (Returns _, w2) => (r, w2)
    | (Raises e, w2) => (Raises e, w2)
    end.

Definition emit (e : event) : M unit :=
  fun w => (Returns tt, {| cache := cache w; trace := trace w ++ [e] |}).

(** [text.encode()] *)
Definition encode (text : string) : M string :=
  if Py.is_ascii text then ret text else raise UnicodeDecodeError.

(** A name that no enclosing scope binds. *)
Definition unbound_name {A} (name : string) : M A := raise (NameError name).

Definition run {A} (m : M A) (db : KeyValueStore) : outcome A * world :=
  m {| cache := db; trace := [] |}.

(** ** proxy.py *)

Section Connection.

(** The tokenizer of the library module. *)
Variable ParseCommand : string -> string * string * string.
(** The clock reading while the connection is handled. *)
Variable now : Z.
(** How the backend behaves for this connection. *)
Variable srv : backend.
(** The socket of the client being served. *)
Variable sock : client_socket.

Definition sock_connect (addr : string) (port : Z) : M unit :=
  emit (SockConnect addr port) ;;;
  if accepts srv then ret tt else raise SocketError.

Definition sock_sendall (data : string) : M unit :=
  emit (SockSendAll data) ;;;
  if receives srv then ret tt else raise SocketError.

Definition sock_ReadCommand : M string :=
  emit SockReadCommand ;;;
  match responds srv with
  | Some line => ret line
  | None => raise SocketError
  end.

Definition cache_StoreValue (name text : string) : M unit :=
  fun w =>
    (Returns tt,
     {| cache := StoreValue name text now (cache w);
        trace := trace w ++ [CacheStore name text] |}).

Definition cache_GetValue (name : string) (max_age : Z) : M (option string) :=
  fun w =>
    (Returns (GetValue name max_age now (cache w)),
     {| cache := cache w; trace := trace w ++ [CacheGet name] |}).

(** The socket is created and connected before the [try]; only what
    follows is covered by the [finally] that closes it. *)
Definition ForwardCommandToServer (msg_to_server : string * string * Z)
    : M string :=
  let '(command_line, server_addr, server_port) := msg_to_server in
  emit SockOpen ;;;
  sock_connect server_addr server_port ;;;
  try_finally
    (data <- encode command_line ;;
     sock_sendall data ;;;
     line <- sock_ReadCommand ;;
     ret (Py.strip Py.NL line))
    (emit SockClose).

Definition PutCommand (name text : string)
    (msg_to_server : string * string * Z) : M string :=
  cache_StoreValue name text ;;;
  ForwardCommandToServer msg_to_server.

(** [if not res] holds for [None] and for the empty string alike: only a
    non-empty string skips the branch.  Inside it, [text] is neither a
    parameter nor a local of GetCommand and proxy.py has no module-level
    [text]: evaluating the arguments of StoreValue raises NameError before
    StoreValue is called. *)
Definition GetCommand (name : string)
    (msg_to_server : string * string * Z) : M string :=
  res <- cache_GetValue name MAX_CACHE_AGE_SEC ;;
  match res with
  | Some (String _ _ as hit) => ret hit
  | _ =>
      res <- ForwardCommandToServer msg_to_server ;;
      (if negb (String.eqb res KEY_ABSENT)
       then text <- unbound_name "text" ;; cache_StoreValue name text
       else ret tt) ;;;
      ret res
  end.

(** [sock.send(data)] on the client socket: the call is made and, when the
    client does not take it, raises. *)
Definition sock_send (data : string) : M unit :=
  fun w =>
    (if sock (length (client_lines (trace w))) then Returns tt
     else Raises SocketError,
     {| cache := cache w; trace := trace w ++ [ClientSend data] |}).

Definition SendText (text : string) : M unit :=
  data <- encode text ;;
  sock_send (data +:+ Py.NL).

(** [command_line] is what [library.ReadCommand(sock)] returned for the
    client socket.  [result] starts out empty and the unknown-verb branch
    leaves it so; the final SendText runs in every branch. *)
Definition ProxyClientCommand (command_line server_addr : string)
    (server_port : Z) : M unit :=
  let '(cmd, name, text) := ParseCommand command_line in
  let msg_to_server := (command_line, server_addr, server_port) in
  result <-
    (if String.eqb cmd "PUT" then PutCommand name text msg_to_server
     else if String.eqb cmd "GET" then GetCommand name msg_to_server
     else if String.eqb cmd "DUMP" then ForwardCommandToServer msg_to_server
     else SendText ("Unknown command " +:+ cmd) ;;; ret EmptyString) ;;
  SendText result.

End Connection.

(** ** The accept loop *)

(** One client connection: the command line it sends, when it is handled,
    what the backend does meanwhile, and what the client socket does with
    the writes. *)
Record connection := {
  request : string;
  arrival : Z;
  upstream : backend;
  client : client_socket
}.

Section Main.

Variable ParseCommand : string -> string * string * string.

(** Body of the [while True] loop: accept (and log) a client, handle its
    command, and close its socket whatever happened. *)
Definition serve (c : connection) : M unit :=
  emit Accepted ;;;
  try_finally
    (ProxyClientCommand ParseCommand (arrival c) (upstream c) (client c)
       (request c) SERVER_ADDRESS SERVER_PORT)
    (emit ClientClose).

Inductive status :=
| Listening               (* blocked in accept, waiting for a client *)
| Died (e : exn).         (* an exception left main *)

(** The loop over the connections that arrive; every event carries the
    index of the connection being served when it happened. *)
Fixpoint accept_loop (n : nat) (conns : list connection)
    (db : KeyValueStore) : status * KeyValueStore * list (nat * event) :=
  match conns with
  | [] => (Listening, db, [])
  | c :: rest =>
      let (r, w) := run (serve c) db in
      let mine := map (pair n) (trace w) in
      match r with
      | Raises e => (Died e, cache w, mine)
      | Returns _ =>
          let '(st, db', later) := accept_loop (S n) rest (cache w) in
          (st, db', mine ++ later)
      end
  end.

Definition main (conns : list connection)
    : status * KeyValueStore * list (nat * event) :=
  accept_loop 0 conns ∅.

End Main.

(** ** Reading a trace *)

Definition is_cache_event (e : event) : bool :=
  match e with
  | CacheGet _ | CacheStore _ _ => true
  | _ => false
  end.

(** How many backend sockets were created. *)
Fixpoint opened (tr : list event) : nat :=
  match tr with
  | [] => O
  | SockOpen :: rest => S (opened rest)
  | _ :: rest => opened rest
  end.

(** How many backend sockets were closed. *)
Fixpoint closed (tr : list event) : nat :=
  match tr with
  | [] => O
  | SockClose :: rest => S (closed rest)
  | _ :: rest => closed rest
  end.

(** [data] is a line whose only trailing newline is its last byte. *)
Definition one_newline_terminated (data : string) : Prop :=
  exists body, data = body +:+ Py.NL /\ Py.last_char body <> Some Py.LF.

(** The backend fails somewhere between connect and the reply. *)
Definition backend_fails (srv : backend) : Prop :=
  accepts srv = false \/ receives srv = false \/ responds srv = None.

(** What [if not res] lets through in GetCommand: a fresh, non-empty value. *)
Definition served_from_cache (name : string) (now : Z)
    (db : KeyValueStore) : option string :=
  match GetValue name MAX_CACHE_AGE_SEC now db with
  | Some (String _ _ as hit) => Some hit
  | _ => None
  end.

(** The command is one that ProxyClientCommand takes to the backend. *)
Definition reaches_backend (cmd name : string) (now : Z)
    (db : KeyValueStore) : Prop :=
  cmd = "PUT" \/ cmd = "DUMP" \/
  (cmd = "GET" /\ served_from_cache name now db = None).

(** No stored value ends in a newline. *)
Definition newline_free (db : KeyValueStore) : Prop :=
  forall key e, db !! key = Some e -> Py.last_char (value e) <> Some Py.LF.

(** Some event of a later connection precedes one of an earlier connection. *)
Definition overlap (tr : list (nat * event)) : Prop :=
  exists i j a b ea eb,
    (i < j)%nat /\ tr !! i = Some (b, eb) /\ tr !! j = Some (a, ea) /\ (a < b)%nat.

Fixpoint in_turn (tr : list (nat * event)) : bool :=
  match tr with
  | [] => true
  | (a, _) :: rest => forallb (fun x => (a <=? fst x)%nat) rest && in_turn rest
  end.

(** The result of one call of ForwardCommandToServer. *)
Definition forward_result (srv : backend) (command_line : string)
    : outcome string :=
  if accepts srv then
    if Py.is_ascii command_line then
      if receives srv then
        match responds srv with
        | Some line => Returns (Py.strip Py.NL line)
        | None => Raises SocketError
        end
      else Raises SocketError
    else Raises UnicodeDecodeError
  else Raises SocketError.

(** The socket calls of one call of ForwardCommandToServer. *)
Definition forward_events (srv : backend) (command_line addr : string)
    (port : Z) : list event :=
  SockOpen :: SockConnect addr port ::
  (if accepts srv then
     (if Py.is_ascii command_line then
        SockSendAll command_line ::
        (if receives srv then [SockReadCommand] else [])
      else []) ++ [SockClose]
   else []).

(** The outcome of one call of SendText made after [n] earlier sends. *)
Definition reply_result (sock : client_socket) (n : nat) (text : string)
    : outcome unit :=
  if Py.is_ascii text then
    if sock n then Returns tt else Raises SocketError
  else Raises UnicodeDecodeError.

(** The send call of one call of SendText. *)
Definition reply_events (text : string) : list event :=
  if Py.is_ascii text then [ClientSend (text +:+ Py.NL)] else [].

(** Concrete backends, clients and connections used in the examples. *)
Definition replying (line : string) : backend :=
  {| accepts := true; receives := true; responds := Some line |}.

Definition unreachable : backend :=
  {| accepts := false; receives := false; responds := None |}.

(** A client that takes every write. *)
Definition connected : client_socket := fun _ => true.

(** A client that takes [k] writes and is gone after that. *)
Definition hangs_up_after (k : nat) : client_socket := fun n => (n <? k)%nat.

Definition ln (s : string) : string := s +:+ Py.NL.

(** A word with one byte above 127 (Latin-1 e acute). *)
Definition cafe : string := "caf" +:+ String "233"%char EmptyString.

(** A computation that only ever appends to the trace, and that depends
    on the trace it starts from by nothing but the number of writes to the
    client recorded there. *)
Definition appends {A} (m : M A) : Prop :=
  forall db before before',
    length (client_lines before) = length (client_lines before') ->
    exists r db' added,
      m {| cache := db; trace := before |} =
        (r, {| cache := db'; trace := before ++ added |}) /\
      m {| cache := db; trace := before' |} =
        (r, {| cache := db'; trace := before' ++ added |}).

(** A client whose GET finds the backend down, and a second client behind it. *)
Definition down_then_dump : list connection :=
  [{| request := ln "GET z"; arrival := 0; upstream := unreachable;
      client := connected |};
   {| request := ln "DUMP"; arrival := 1; upstream := replying (ln "");
      client := connected |}].

(** Two clients, one after the other. *)
Definition two_clients : list connection :=
  [{| request := ln "GET x"; arrival := 0; upstream := replying (ln KEY_ABSENT);
      client := connected |};
   {| request := ln "FROB z"; arrival := 0; upstream := unreachable;
      client := connected |}].

(** ** DumpCommand *)

Section Dump.

(** The keys that [database.Keys()] yields, in the order it yields them;
    the method belongs to the library module. *)
Variable Keys : KeyValueStore -> list string.

(** The loop appends [key + ', '] for every key; the final [strip(', ')]
    removes every comma and space at either end of the whole text. *)
Definition DumpCommand (database : KeyValueStore) : string :=
  let csv_format :=
    fold_left (fun csv key => csv +:+ key +:+ ", ") (Keys database) EmptyString in
  Py.strip ", " csv_format.

End Dump.

(** The calls main itself makes on a client socket. *)
Definition is_client_socket_event (e : event) : bool :=
  match e with
  | Accepted | ClientClose => true
  | _ => false
  end.

(** [k] clients accepted and closed, one after the other. *)
Fixpoint accept_close (k : nat) : list event :=
  match k with
  | O => []
  | S k' => Accepted :: ClientClose :: accept_close k'
  end.

(** A PUT, then a GET of the same key 30 seconds later with the backend down. *)
Definition put_then_get : list connection :=
  [{| request := ln "PUT y hello world"; arrival := 0;
      upstream := replying (ln "OK"); client := connected |};
   {| request := ln "GET y"; arrival := 30; upstream := unreachable;
      client := connected |}].

(** One client and its request, served at time 0 with a client that takes
    every write. *)
Definition one_client (command_line : string) (srv : backend) : list connection :=
  [{| request := command_line; arrival := 0; upstream := srv;
      client := connected |}].


(** ** String lemmas *)

Lemma last_char_app_NL (s : string) : Py.last_char (s +:+ Py.NL) = Some Py.LF.
Proof.
  induction s as [|a s IH]; [reflexivity|].
  simpl. destruct (s +:+ Py.NL) eqn:E; [|exact IH].
  destruct s; discriminate.
Qed.

Lemma rstrip_last (chars s : string) (a : ascii) :
  Py.last_char (Py.rstrip chars s) = Some a -> Py.in_chars a chars = false.
Proof.
  revert a. induction s as [|c s IH]; intros a; simpl; [discriminate|].
  destruct (Py.rstrip chars s) as [|k kept] eqn:E.
  - destruct (Py.in_chars c chars) eqn:Hc; simpl; [discriminate|].
    intros [= <-]. exact Hc.
  - intros H. apply IH. exact H.
Qed.

Lemma lstrip_first (chars s : string) (a : ascii) :
  Py.first_char (Py.lstrip chars s) = Some a -> Py.in_chars a chars = false.
Proof.
  induction s as [|c s IH]; simpl; [discriminate|].
  destruct (Py.in_chars c chars) eqn:Hc; [exact IH|].
  simpl. intros [= <-]. exact Hc.
Qed.

Lemma rstrip_first (chars s : string) (a : ascii) :
  Py.first_char (Py.rstrip chars s) = Some a -> Py.first_char s = Some a.
Proof.
  destruct s as [|c s]; simpl; [discriminate|].
  destruct (Py.rstrip chars s); [destruct (Py.in_chars c chars)|];
    simpl; congruence.
Qed.

Lemma in_chars_NL : Py.in_chars Py.LF Py.NL = true.
Proof. reflexivity. Qed.

(** [strip('\n')] leaves no newline at either end. *)
Lemma strip_NL_ends (s : string) :
  Py.first_char (Py.strip Py.NL s) <> Some Py.LF /\
  Py.last_char (Py.strip Py.NL s) <> Some Py.LF.
Proof.
  unfold Py.strip. split; intros H.
  - apply rstrip_first, lstrip_first in H. rewrite in_chars_NL in H. discriminate.
  - apply rstrip_last in H. rewrite in_chars_NL in H. discriminate.
Qed.

Lemma line_one_newline (body : string) :
  Py.last_char body <> Some Py.LF -> one_newline_terminated (body +:+ Py.NL).
Proof. intros H. exists body. split; [reflexivity|exact H]. Qed.

Lemma last_char_cons (c : ascii) (s : string) :
  Py.last_char (String c s) =
    match Py.last_char s with
    | Some d => Some d
    | None => Some c
    end.
Proof.
  revert c. induction s as [|d s IH]; intros c; [reflexivity|].
  change (Py.last_char (String c (String d s)))
    with (Py.last_char (String d s)).
  rewrite (IH d). destruct (Py.last_char s); reflexivity.
Qed.

Lemma last_char_app (a b : string) :
  Py.last_char (a +:+ b) =
    match Py.last_char b with
    | Some c => Some c
    | None => Py.last_char a
    end.
Proof.
  induction a as [|c a IH].
  - change (EmptyString +:+ b) with b. destruct (Py.last_char b); reflexivity.
  - change (String c a +:+ b) with (String c (a +:+ b)).
    rewrite last_char_cons, IH, (last_char_cons c a).
    destruct (Py.last_char b), (Py.last_char a); reflexivity.
Qed.

Lemma append_empty_r (s : string) : s +:+ EmptyString = s.
Proof.
  induction s as [|c s IH]; [reflexivity|].
  change (String c s +:+ EmptyString) with (String c (s +:+ EmptyString)).
  rewrite IH. reflexivity.
Qed.

Lemma append_assoc (a b c : string) : (a +:+ b) +:+ c = a +:+ b +:+ c.
Proof.
  induction a as [|x a IH]; [reflexivity|].
  change ((String x a +:+ b) +:+ c) with (String x ((a +:+ b) +:+ c)).
  change (String x a +:+ b +:+ c) with (String x (a +:+ b +:+ c)).
  rewrite IH. reflexivity.
Qed.

Lemma lstrip_split (chars s : string) :
  exists pre, s = pre +:+ Py.lstrip chars s /\ Py.all_in chars pre = true.
Proof.
  induction s as [|a s IH]; [exists EmptyString; split; reflexivity|].
  simpl. destruct (Py.in_chars a chars) eqn:Ha.
  - destruct IH as (pre & Hs & Hpre). exists (String a pre). split.
    + change (String a pre +:+ Py.lstrip chars s)
        with (String a (pre +:+ Py.lstrip chars s)).
      rewrite <- Hs. reflexivity.
    + simpl. rewrite Ha, Hpre. reflexivity.
  - exists EmptyString. split; reflexivity.
Qed.

Lemma rstrip_split (chars s : string) :
  exists post, s = Py.rstrip chars s +:+ post /\ Py.all_in chars post = true.
Proof.
  induction s as [|a s IH]; [exists EmptyString; split; reflexivity|].
  destruct IH as (post & Hs & Hpost). simpl.
  destruct (Py.rstrip chars s) as [|k kept] eqn:Hr.
  - destruct (Py.in_chars a chars) eqn:Ha.
    + exists (String a post). split.
      * change (EmptyString +:+ post) with post in Hs. rewrite <- Hs. reflexivity.
      * simpl. rewrite Ha, Hpost. reflexivity.
    + exists post. split; [|exact Hpost].
      change (EmptyString +:+ post) with post in Hs.
      change (String a EmptyString +:+ post) with (String a post).
      rewrite <- Hs. reflexivity.
  - exists post. split; [|exact Hpost].
    change (String a (String k kept) +:+ post)
      with (String a (String k kept +:+ post)).
    rewrite <- Hs. reflexivity.
Qed.

(** What [strip] removes is a run of [chars] at either end, and nothing
    else. *)
Lemma strip_split (chars s : string) :
  exists pre post,
    s = pre +:+ Py.strip chars s +:+ post /\
    Py.all_in chars pre = true /\ Py.all_in chars post = true.
Proof.
  destruct (lstrip_split chars s) as (pre & Hs & Hpre).
  destruct (rstrip_split chars (Py.lstrip chars s)) as (post & Hl & Hpost).
  exists pre, post. split; [|split; assumption].
  unfold Py.strip. rewrite <- Hl. exact Hs.
Qed.

(** ** The forwarding client *)

Ltac step :=
  unfold run, ProxyClientCommand, PutCommand, GetCommand, ForwardCommandToServer,
    SendText, sock_send, sock_connect, sock_sendall, sock_ReadCommand,
    cache_StoreValue,
    cache_GetValue, try_finally, encode, unbound_name, emit, bind, ret, raise;
  simpl.

Lemma ForwardCommandToServer_run (srv : backend) (command_line addr : string)
    (port : Z) (w : world) :
  ForwardCommandToServer srv (command_line, addr, port) w =
  (forward_result srv command_line,
   {| cache := cache w;
      trace := trace w ++ forward_events srv command_line addr port |}).
Proof.
  unfold forward_result, forward_events. step.
  destruct srv as [[] [] []]; simpl;
    destruct (Py.is_ascii command_line); simpl;
    rewrite <- ?app_assoc; reflexivity.
Qed.

(** Once connect has succeeded the socket is closed exactly once, last of
    all, however the exchange ends. *)
Lemma ForwardCommandToServer_closes_when_connected (srv : backend)
    (command_line addr : string) (port : Z) (db : KeyValueStore) :
  accepts srv = true ->
  let tr := trace (snd (run (ForwardCommandToServer srv (command_line, addr, port)) db)) in
  last tr = Some SockClose /\ opened tr = 1%nat /\ closed tr = 1%nat.
Proof.
  intros Hacc. unfold run. rewrite ForwardCommandToServer_run. simpl.
  unfold forward_events. rewrite Hacc.
  destruct (Py.is_ascii command_line), (receives srv); simpl; auto.
Qed.

(** C7 (the code departs from the claim): when connection establishment
    fails, ForwardCommandToServer has created a socket and called connect on
    it, and the error propagates with no close call: the connect call sits
    before the try/finally that closes the socket. *)
Theorem refused_connect_leaves_socket_open (command_line addr : string)
    (port : Z) (db : KeyValueStore) :
  run (ForwardCommandToServer unreachable (command_line, addr, port)) db =
    (Raises SocketError,
     {| cache := db; trace := [SockOpen; SockConnect addr port] |}) /\
  closed [SockOpen; SockConnect addr port] = 0%nat.
Proof. split; reflexivity. Qed.


(** ** Reading traces *)

Lemma opened_app (a b : list event) :
  opened (a ++ b) = (opened a + opened b)%nat.
Proof. induction a as [|[] a IH]; simpl; auto. Qed.

Lemma closed_app (a b : list event) :
  closed (a ++ b) = (closed a + closed b)%nat.
Proof. induction a as [|[] a IH]; simpl; auto. Qed.

Lemma client_lines_app (a b : list event) :
  client_lines (a ++ b) = client_lines a ++ client_lines b.
Proof. induction a as [|[] a IH]; simpl; auto. f_equal. exact IH. Qed.

Lemma forward_events_opened (srv : backend) (command_line addr : string)
    (port : Z) :
  opened (forward_events srv command_line addr port) = 1%nat.
Proof.
  unfold forward_events.
  destruct (accepts srv), (Py.is_ascii command_line), (receives srv); reflexivity.
Qed.

Lemma forward_events_no_cache (srv : backend) (command_line addr : string)
    (port : Z) :
  List.filter is_cache_event (forward_events srv command_line addr port) = [].
Proof.
  unfold forward_events.
  destruct (accepts srv), (Py.is_ascii command_line), (receives srv); reflexivity.
Qed.

Lemma forward_events_no_reply (srv : backend) (command_line addr : string)
    (port : Z) :
  client_lines (forward_events srv command_line addr port) = [].
Proof.
  unfold forward_events.
  destruct (accepts srv), (Py.is_ascii command_line), (receives srv); reflexivity.
Qed.

Lemma forward_events_closed (srv : backend) (command_line addr : string)
    (port : Z) :
  closed (forward_events srv command_line addr port) =
    if accepts srv then 1%nat else 0%nat.
Proof.
  unfold forward_events.
  destruct (accepts srv), (Py.is_ascii command_line), (receives srv); reflexivity.
Qed.

Lemma forward_events_no_client_socket (srv : backend)
    (command_line addr : string) (port : Z) :
  List.filter is_client_socket_event
    (forward_events srv command_line addr port) = [].
Proof.
  unfold forward_events.
  destruct (accepts srv), (Py.is_ascii command_line), (receives srv); reflexivity.
Qed.

Lemma forward_events_no_store (srv : backend) (command_line addr : string)
    (port : Z) (k v : string) :
  ~ In (CacheStore k v) (forward_events srv command_line addr port).
Proof.
  unfold forward_events.
  destruct (accepts srv), (Py.is_ascii command_line), (receives srv); simpl;
    intros Hin; repeat (destruct Hin as [Hin|Hin]; [discriminate|]); exact Hin.
Qed.


(** ** SendText *)

Lemma SendText_run (sock : client_socket) (text : string) (w : world) :
  SendText sock text w =
  (reply_result sock (length (client_lines (trace w))) text,
   {| cache := cache w; trace := trace w ++ reply_events text |}).
Proof.
  unfold SendText, sock_send, encode, reply_result, reply_events, bind, ret, raise.
  destruct (Py.is_ascii text); simpl; [reflexivity|].
  rewrite app_nil_r. destruct w; reflexivity.
Qed.

Lemma reply_events_opened (text : string) : opened (reply_events text) = 0%nat.
Proof. unfold reply_events. destruct (Py.is_ascii text); reflexivity. Qed.

Lemma reply_events_closed (text : string) : closed (reply_events text) = 0%nat.
Proof. unfold reply_events. destruct (Py.is_ascii text); reflexivity. Qed.

Lemma reply_events_no_cache (text : string) :
  List.filter is_cache_event (reply_events text) = [].
Proof. unfold reply_events. destruct (Py.is_ascii text); reflexivity. Qed.

Lemma reply_events_no_client_socket (text : string) :
  List.filter is_client_socket_event (reply_events text) = [].
Proof. unfold reply_events. destruct (Py.is_ascii text); reflexivity. Qed.

(** ** ProxyClientCommand, verb by verb *)

Ltac dispatch :=
  unfold run, ProxyClientCommand, PutCommand, GetCommand,
    cache_StoreValue, cache_GetValue, unbound_name, bind, ret, raise;
  cbn -[ForwardCommandToServer SendText].

Lemma served_from_cache_Some (name : string) (now : Z) (db : KeyValueStore)
    (v : string) :
  served_from_cache name now db = Some v ->
  GetValue name MAX_CACHE_AGE_SEC now db = Some v /\ v <> EmptyString.
Proof.
  unfold served_from_cache.
  destruct (GetValue name MAX_CACHE_AGE_SEC now db) as [[|a s]|];
    intros [= <-]; split; congruence.
Qed.

Lemma is_ascii_app (a b : string) :
  Py.is_ascii (a +:+ b) = Py.is_ascii a && Py.is_ascii b.
Proof.
  unfold Py.is_ascii. induction a as [|c a IH]; [reflexivity|].
  simpl. rewrite IH. apply andb_assoc.
Qed.

Lemma PUT_run (parse : string -> string * string * string) (now : Z)
    (srv : backend) (sock : client_socket)
    (command_line name text addr : string) (port : Z) (db : KeyValueStore) :
  parse command_line = ("PUT", name, text) ->
  run (ProxyClientCommand parse now srv sock command_line addr port) db =
    match forward_result srv command_line with
    | Raises e =>
        (Raises e,
         {| cache := StoreValue name text now db;
            trace := CacheStore name text ::
                       forward_events srv command_line addr port |})
    | Returns res =>
        (reply_result sock 0 res,
         {| cache := StoreValue name text now db;
            trace := CacheStore name text ::
                       forward_events srv command_line addr port
                       ++ reply_events res |})
    end.
Proof.
  intros Hparse. dispatch. rewrite Hparse. cbn -[ForwardCommandToServer SendText].
  rewrite ForwardCommandToServer_run. cbn -[SendText forward_events].
  destruct (forward_result srv command_line) as [res|e]; [|reflexivity].
  rewrite SendText_run. cbn [trace cache].
  change (client_lines (CacheStore name text ::
                          forward_events srv command_line addr port))
    with (client_lines (forward_events srv command_line addr port)).
  rewrite forward_events_no_reply. reflexivity.
Qed.

Lemma DUMP_run (parse : string -> string * string * string) (now : Z)
    (srv : backend) (sock : client_socket)
    (command_line name text addr : string) (port : Z) (db : KeyValueStore) :
  parse command_line = ("DUMP", name, text) ->
  run (ProxyClientCommand parse now srv sock command_line addr port) db =
    match forward_result srv command_line with
    | Raises e =>
        (Raises e,
         {| cache := db; trace := forward_events srv command_line addr port |})
    | Returns res =>
        (reply_result sock 0 res,
         {| cache := db;
            trace := forward_events srv command_line addr port
                       ++ reply_events res |})
    end.
Proof.
  intros Hparse. dispatch. rewrite Hparse. cbn -[ForwardCommandToServer SendText].
  rewrite ForwardCommandToServer_run. cbn -[SendText forward_events].
  destruct (forward_result srv command_line) as [res|e]; [|reflexivity].
  rewrite SendText_run. cbn [trace cache].
  rewrite forward_events_no_reply. reflexivity.
Qed.

(** A fresh, non-empty cached value is what is written to the client, and no
    socket is opened. *)
Lemma GET_hit_run_any (parse : string -> string * string * string) (now : Z)
    (srv : backend) (sock : client_socket)
    (command_line name text addr : string) (port : Z)
    (db : KeyValueStore) (v : string) :
  parse command_line = ("GET", name, text) ->
  served_from_cache name now db = Some v ->
  run (ProxyClientCommand parse now srv sock command_line addr port) db =
    (reply_result sock 0 v,
     {| cache := db; trace := CacheGet name :: reply_events v |}).
Proof.
  intros Hparse Hhit. apply served_from_cache_Some in Hhit as [Hget Hne].
  dispatch. rewrite Hparse. cbn -[ForwardCommandToServer SendText].
  rewrite Hget. destruct v as [|a s]; [congruence|].
  rewrite SendText_run. reflexivity.
Qed.

(** Without such a value GetCommand makes one call of the forwarding
    client; the absent-key reply is relayed, any other reply is lost to the
    NameError raised while the arguments of StoreValue are evaluated. *)
Lemma GET_miss_run (parse : string -> string * string * string) (now : Z)
    (srv : backend) (sock : client_socket)
    (command_line name text addr : string) (port : Z) (db : KeyValueStore) :
  parse command_line = ("GET", name, text) ->
  served_from_cache name now db = None ->
  run (ProxyClientCommand parse now srv sock command_line addr port) db =
    match forward_result srv command_line with
    | Raises e =>
        (Raises e,
         {| cache := db;
            trace := CacheGet name :: forward_events srv command_line addr port |})
    | Returns res =>
        if String.eqb res KEY_ABSENT then
          (if sock 0%nat then Returns tt else Raises SocketError,
           {| cache := db;
              trace := CacheGet name :: forward_events srv command_line addr port
                         ++ [ClientSend (KEY_ABSENT +:+ Py.NL)] |})
        else
          (Raises (NameError "text"),
           {| cache := db;
              trace := CacheGet name :: forward_events srv command_line addr port |})
    end.
Proof.
  intros Hparse Hmiss. unfold served_from_cache in Hmiss.
  dispatch. rewrite Hparse. cbn -[ForwardCommandToServer SendText].
  destruct (GetValue name MAX_CACHE_AGE_SEC now db) as [[|a s]|];
    try discriminate;
    rewrite ForwardCommandToServer_run; cbn -[SendText forward_events];
    (destruct (forward_result srv command_line) as [res|e]; [|reflexivity]);
    (destruct (String.eqb res KEY_ABSENT) eqn:E;
       cbn -[SendText forward_events]; [|reflexivity]);
    apply String.eqb_eq in E; subst res;
    rewrite SendText_run; cbn [trace cache];
    change (client_lines (CacheGet name ::
                            forward_events srv command_line addr port))
      with (client_lines (forward_events srv command_line addr port));
    rewrite forward_events_no_reply; reflexivity.
Qed.

(** An unknown verb is answered locally, with two sends: the line naming
    the verb and then the still empty [result]. *)
Lemma unknown_verb_run_any (parse : string -> string * string * string)
    (now : Z) (srv : backend) (sock : client_socket)
    (command_line cmd name text addr : string) (port : Z)
    (db : KeyValueStore) :
  parse command_line = (cmd, name, text) ->
  cmd <> "PUT" -> cmd <> "GET" -> cmd <> "DUMP" ->
  run (ProxyClientCommand parse now srv sock command_line addr port) db =
    if Py.is_ascii cmd then
      if sock 0%nat then
        (if sock 1%nat then Returns tt else Raises SocketError,
         {| cache := db;
            trace := [ClientSend (("Unknown command " +:+ cmd) +:+ Py.NL);
                      ClientSend Py.NL] |})
      else
        (Raises SocketError,
         {| cache := db;
            trace := [ClientSend (("Unknown command " +:+ cmd) +:+ Py.NL)] |})
    else (Raises UnicodeDecodeError, {| cache := db; trace := [] |}).
Proof.
  intros Hparse Hput Hget Hdump. dispatch. rewrite Hparse.
  apply String.eqb_neq in Hput, Hget, Hdump.
  cbn -[ForwardCommandToServer SendText String.eqb].
  rewrite Hput, Hget, Hdump. unfold bind, ret.
  rewrite SendText_run. unfold reply_result, reply_events. cbn [trace cache].
  rewrite (is_ascii_app "Unknown command " cmd).
  change (Py.is_ascii "Unknown command ") with true. cbn [andb].
  destruct (Py.is_ascii cmd); [|reflexivity].
  cbn [client_lines length app].
  destruct (sock 0%nat); [|reflexivity].
  rewrite SendText_run. reflexivity.
Qed.

(** A property of the run of ProxyClientCommand follows from the five ways
    a command is dispatched. *)
Lemma ProxyClientCommand_by_verb
    (parse : string -> string * string * string) (now : Z) (srv : backend)
    (sock : client_socket) (command_line cmd name text addr : string)
    (port : Z) (db : KeyValueStore) (P : outcome unit * world -> Prop) :
  parse command_line = (cmd, name, text) ->
  (cmd = "PUT" ->
   P match forward_result srv command_line with
     | Raises e =>
         (Raises e,
          {| cache := StoreValue name text now db;
             trace := CacheStore name text ::
                        forward_events srv command_line addr port |})
     | Returns res =>
         (reply_result sock 0 res,
          {| cache := StoreValue name text now db;
             trace := CacheStore name text ::
                        forward_events srv command_line addr port
                        ++ reply_events res |})
     end) ->
  (forall v, cmd = "GET" -> served_from_cache name now db = Some v ->
   P (reply_result sock 0 v,
      {| cache := db; trace := CacheGet name :: reply_events v |})) ->
  (cmd = "GET" -> served_from_cache name now db = None ->
   P match forward_result srv command_line with
     | Raises e =>
         (Raises e,
          {| cache := db;
             trace := CacheGet name :: forward_events srv command_line addr port |})
     | Returns res =>
         if String.eqb res KEY_ABSENT then
           (if sock 0%nat then Returns tt else Raises SocketError,
            {| cache := db;
               trace := CacheGet name :: forward_events srv command_line addr port
                          ++ [ClientSend (KEY_ABSENT +:+ Py.NL)] |})
         else
           (Raises (NameError "text"),
            {| cache := db;
               trace := CacheGet name :: forward_events srv command_line addr port |})
     end) ->
  (cmd = "DUMP" ->
   P match forward_result srv command_line with
     | Raises e =>
         (Raises e,
          {| cache := db; trace := forward_events srv command_line addr port |})
     | Returns res =>
         (reply_result sock 0 res,
          {| cache := db;
             trace := forward_events srv command_line addr port
                        ++ reply_events res |})
     end) ->
  (cmd <> "PUT" -> cmd <> "GET" -> cmd <> "DUMP" ->
   P (if Py.is_ascii cmd then
        if sock 0%nat then
          (if sock 1%nat then Returns tt else Raises SocketError,
           {| cache := db;
              trace := [ClientSend (("Unknown command " +:+ cmd) +:+ Py.NL);
                        ClientSend Py.NL] |})
        else
          (Raises SocketError,
           {| cache := db;
              trace := [ClientSend (("Unknown command " +:+ cmd) +:+ Py.NL)] |})
      else (Raises UnicodeDecodeError, {| cache := db; trace := [] |}))) ->
  P (run (ProxyClientCommand parse now srv sock command_line addr port) db).
Proof.
  intros Hparse Hput Hhit Hmiss Hdump Hother.
  destruct (String.eqb_spec cmd "PUT") as [->|Hnp].
  { rewrite (PUT_run _ _ _ _ _ _ _ _ _ _ Hparse). apply Hput. reflexivity. }
  destruct (String.eqb_spec cmd "GET") as [->|Hng].
  { destruct (served_from_cache name now db) as [v|] eqn:Hserved.
    - rewrite (GET_hit_run_any _ _ _ _ _ _ _ _ _ _ _ Hparse Hserved).
      apply Hhit; reflexivity.
    - rewrite (GET_miss_run _ _ _ _ _ _ _ _ _ _ Hparse Hserved).
      apply Hmiss; reflexivity. }
  destruct (String.eqb_spec cmd "DUMP") as [->|Hnd].
  { rewrite (DUMP_run _ _ _ _ _ _ _ _ _ _ Hparse). apply Hdump. reflexivity. }
  rewrite (unknown_verb_run_any _ _ _ _ _ _ _ _ _ _ _ Hparse Hnp Hng Hnd).
  apply Hother; assumption.
Qed.

(** Case analysis on the run of ProxyClientCommand in the goal. *)
Ltac by_verb Hparse :=
  match goal with
  | |- context [run (ProxyClientCommand ?p ?n ?s ?k ?c ?a ?po) ?d] =>
      pattern (run (ProxyClientCommand p n s k c a po) d)
  end;
  apply (ProxyClientCommand_by_verb _ _ _ _ _ _ _ _ _ _ _ _ Hparse);
  cbv beta;
  [ intros ?Hcmd
  | intros ?v ?Hcmd ?Hserved
  | intros ?Hcmd ?Hserved
  | intros ?Hcmd
  | intros ?Hput ?Hget ?Hdump ];
  unfold reply_result, reply_events;
  repeat match goal with
    | |- context [match forward_result ?s ?c with _ => _ end] =>
        let res := fresh "res" in
        let e := fresh "e" in
        let Hfw := fresh "Hfw" in
        destruct (forward_result s c) as [res|e] eqn:Hfw
    | |- context [if Py.is_ascii ?s then _ else _] =>
        let Hascii := fresh "Hascii" in
        destruct (Py.is_ascii s) eqn:Hascii
    | |- context [if String.eqb ?a KEY_ABSENT then _ else _] =>
        let Habsent := fresh "Habsent" in
        destruct (String.eqb a KEY_ABSENT) eqn:Habsent
    | |- context [if ?k 0%nat then _ else _] =>
        let Hfirst := fresh "Hfirst" in
        destruct (k 0%nat) eqn:Hfirst
    | |- context [if ?k 1%nat then _ else _] =>
        let Hsecond := fresh "Hsecond" in
        destruct (k 1%nat) eqn:Hsecond
    end;
  rewrite ?app_nil_r.

(** ** GET *)

Lemma GET_hit_run (parse : string -> string * string * string) (now : Z)
    (srv : backend) (sock : client_socket)
    (command_line name text addr : string) (port : Z)
    (db : KeyValueStore) (v : string) :
  parse command_line = ("GET", name, text) ->
  served_from_cache name now db = Some v ->
  Py.is_ascii v = true ->
  run (ProxyClientCommand parse now srv sock command_line addr port) db =
    (if sock 0%nat then Returns tt else Raises SocketError,
     {| cache := db; trace := [CacheGet name; ClientSend (v +:+ Py.NL)] |}).
Proof.
  intros Hparse Hhit Hv.
  rewrite (GET_hit_run_any _ _ _ _ _ _ _ _ _ _ _ Hparse Hhit).
  unfold reply_result, reply_events. rewrite Hv. reflexivity.
Qed.

(** A GET that is not served from the cache opens exactly one backend
    socket, and leaves the cache as it was in every case. *)
Lemma GET_miss_one_round_trip (parse : string -> string * string * string)
    (now : Z) (srv : backend) (sock : client_socket)
    (command_line name text addr : string) (port : Z) (db : KeyValueStore) :
  parse command_line = ("GET", name, text) ->
  served_from_cache name now db = None ->
  let w := snd (run (ProxyClientCommand parse now srv sock command_line
                       addr port) db) in
  opened (trace w) = 1%nat /\ cache w = db.
Proof.
  intros Hparse Hmiss. rewrite (GET_miss_run _ _ _ _ _ _ _ _ _ _ Hparse Hmiss).
  pose proof (forward_events_opened srv command_line addr port) as Ho.
  destruct (forward_result srv command_line) as [res|e]; simpl; auto.
  destruct (String.eqb res KEY_ABSENT); simpl; auto.
  change (opened (forward_events srv command_line addr port ++
                  [ClientSend (KEY_ABSENT +:+ Py.NL)]) = 1%nat /\ db = db).
  rewrite opened_app, Ho. auto.
Qed.

Lemma GET_miss_value_raises_NameError
    (parse : string -> string * string * string) (now : Z) (srv : backend)
    (sock : client_socket) (command_line name text addr : string) (port : Z)
    (db : KeyValueStore) (res : string) :
  parse command_line = ("GET", name, text) ->
  served_from_cache name now db = None ->
  forward_result srv command_line = Returns res ->
  res <> KEY_ABSENT ->
  run (ProxyClientCommand parse now srv sock command_line addr port) db =
    (Raises (NameError "text"),
     {| cache := db;
        trace := CacheGet name :: forward_events srv command_line addr port |}).
Proof.
  intros Hparse Hmiss Hres Hne.
  rewrite (GET_miss_run _ _ _ _ _ _ _ _ _ _ Hparse Hmiss), Hres.
  destruct (String.eqb res KEY_ABSENT) eqn:E; [|reflexivity].
  apply String.eqb_eq in E. contradiction.
Qed.

Lemma GET_miss_absent_key_relayed
    (parse : string -> string * string * string) (now : Z) (srv : backend)
    (sock : client_socket) (command_line name text addr : string) (port : Z)
    (db : KeyValueStore) :
  parse command_line = ("GET", name, text) ->
  served_from_cache name now db = None ->
  forward_result srv command_line = Returns KEY_ABSENT ->
  run (ProxyClientCommand parse now srv sock command_line addr port) db =
    (if sock 0%nat then Returns tt else Raises SocketError,
     {| cache := db;
        trace := CacheGet name :: forward_events srv command_line addr port
                   ++ [ClientSend (KEY_ABSENT +:+ Py.NL)] |}).
Proof.
  intros Hparse Hmiss Hres.
  rewrite (GET_miss_run _ _ _ _ _ _ _ _ _ _ Hparse Hmiss), Hres. reflexivity.
Qed.

(** C1 (the code departs from the claim): the cache is empty and the backend
    answers [GET x] with [5].  GetCommand makes its one round trip, then
    raises NameError on the undefined [text] instead of storing the fetched
    value: the cache stays empty, nothing is written to the client, and the
    exception leaves the accept loop. *)
Theorem GET_miss_fetched_value_not_cached :
  run (ProxyClientCommand library.ParseCommand 0 (replying (ln "5")) connected
         (ln "GET x") SERVER_ADDRESS SERVER_PORT) ∅ =
    (Raises (NameError "text"),
     {| cache := ∅;
        trace := [CacheGet "x"; SockOpen;
                  SockConnect SERVER_ADDRESS SERVER_PORT;
                  SockSendAll (ln "GET x"); SockReadCommand; SockClose] |}) /\
  main library.ParseCommand
    [{| request := ln "GET x"; arrival := 0; upstream := replying (ln "5");
        client := connected |}] =
    (Died (NameError "text"), ∅,
     [(0, Accepted); (0, CacheGet "x"); (0, SockOpen);
      (0, SockConnect SERVER_ADDRESS SERVER_PORT);
      (0, SockSendAll (ln "GET x")); (0, SockReadCommand); (0, SockClose);
      (0, ClientClose)]%nat).
Proof. split; vm_compute; reflexivity. Qed.

(** C4 (the code departs from the claim): the cache holds the empty string
    for [k], written 10 seconds ago.  GetValue finds it, yet [if not res]
    takes the empty value for a miss: the backend is contacted and its
    answer, not the cached value, is what the client gets. *)
Theorem GET_fresh_empty_value_contacts_backend :
  let db : KeyValueStore := StoreValue "k" "" 0 ∅ in
  GetValue "k" MAX_CACHE_AGE_SEC 10 db = Some EmptyString /\
  run (ProxyClientCommand library.ParseCommand 10 (replying (ln KEY_ABSENT))
         connected (ln "GET k") SERVER_ADDRESS SERVER_PORT) db =
    (Returns tt,
     {| cache := db;
        trace := [CacheGet "k"; SockOpen;
                  SockConnect SERVER_ADDRESS SERVER_PORT;
                  SockSendAll (ln "GET k"); SockReadCommand; SockClose;
                  ClientSend (ln KEY_ABSENT)] |}).
Proof. split; vm_compute; reflexivity. Qed.

(** ** Unknown verbs *)

Lemma unknown_verb_run (parse : string -> string * string * string) (now : Z)
    (srv : backend) (command_line cmd name text addr : string) (port : Z)
    (db : KeyValueStore) :
  parse command_line = (cmd, name, text) ->
  cmd <> "PUT" -> cmd <> "GET" -> cmd <> "DUMP" ->
  Py.is_ascii cmd = true ->
  run (ProxyClientCommand parse now srv connected command_line addr port) db =
    (Returns tt,
     {| cache := db;
        trace := [ClientSend (("Unknown command " +:+ cmd) +:+ Py.NL);
                  ClientSend Py.NL] |}).
Proof.
  intros Hparse Hput Hget Hdump Hcmd.
  rewrite (unknown_verb_run_any _ _ _ _ _ _ _ _ _ _ _ Hparse Hput Hget Hdump), Hcmd.
  reflexivity.
Qed.

(** C3 (the code departs from the claim): [FROB z] is not forwarded and the
    first line written names the verb, but ProxyClientCommand then falls
    through to its final SendText and writes a second, empty line. *)
Theorem unknown_verb_gets_two_lines :
  run (ProxyClientCommand library.ParseCommand 0 (replying (ln "5")) connected
         (ln "FROB z") SERVER_ADDRESS SERVER_PORT) ∅ =
    (Returns tt,
     {| cache := ∅;
        trace := [ClientSend (ln "Unknown command FROB"); ClientSend (ln "")] |}) /\
  length (client_lines
            [ClientSend (ln "Unknown command FROB"); ClientSend (ln "")]) = 2%nat.
Proof. split; vm_compute; reflexivity. Qed.

(** ** PUT *)

Lemma GetValue_StoreValue (name text : string) (t now : Z) (db : KeyValueStore) :
  now - t <= MAX_CACHE_AGE_SEC ->
  GetValue name MAX_CACHE_AGE_SEC now (StoreValue name text t db) = Some text.
Proof.
  intros Hage. unfold GetValue, StoreValue. rewrite lookup_insert_eq. simpl.
  destruct (Z.leb_spec (now - t) MAX_CACHE_AGE_SEC); [reflexivity|lia].
Qed.

Lemma PUT_cache (parse : string -> string * string * string) (now : Z)
    (srv : backend) (sock : client_socket)
    (command_line name text addr : string) (port : Z) (db : KeyValueStore) :
  parse command_line = ("PUT", name, text) ->
  cache (snd (run (ProxyClientCommand parse now srv sock command_line
                     addr port) db)) = StoreValue name text now db.
Proof.
  intros Hparse. rewrite (PUT_run _ _ _ _ _ _ _ _ _ _ Hparse).
  destruct (forward_result srv command_line); reflexivity.
Qed.

(** Read-your-write for a non-empty payload: after the PUT has been
    handled, however its forward ended, a GET of the same key within the
    staleness bound writes the payload to the client and opens no socket. *)
Lemma PUT_then_GET_reads_own_write
    (parse : string -> string * string * string) (t1 t2 : Z)
    (srv1 srv2 : backend) (sock1 sock2 : client_socket)
    (put_line get_line k v ignored addr : string)
    (port : Z) (db : KeyValueStore) :
  parse put_line = ("PUT", k, v) ->
  parse get_line = ("GET", k, ignored) ->
  v <> EmptyString ->
  Py.is_ascii v = true ->
  t2 - t1 <= MAX_CACHE_AGE_SEC ->
  let w1 := snd (run (ProxyClientCommand parse t1 srv1 sock1 put_line
                        addr port) db) in
  run (ProxyClientCommand parse t2 srv2 sock2 get_line addr port) (cache w1) =
    (if sock2 0%nat then Returns tt else Raises SocketError,
     {| cache := cache w1; trace := [CacheGet k; ClientSend (v +:+ Py.NL)] |}).
Proof.
  intros Hput Hget Hne Hv Hage w1.
  assert (Hc : cache w1 = StoreValue k v t1 db)
    by (apply (PUT_cache _ _ _ _ _ _ _ _ _ _ Hput)).
  apply (GET_hit_run _ _ _ _ _ _ _ _ _ _ _ Hget); [|exact Hv].
  unfold served_from_cache. rewrite Hc, (GetValue_StoreValue _ _ _ _ _ Hage).
  destruct v; [contradiction|reflexivity].
Qed.

(** C5 (the code departs from the claim): [PUT k] with an empty payload
    stores the empty string for [k]; the GET that follows one second later
    finds the entry, takes its empty value for a miss and goes to the
    backend. *)
Theorem PUT_empty_then_GET_contacts_backend :
  main library.ParseCommand
    [{| request := ln "PUT k"; arrival := 0; upstream := replying (ln "OK");
        client := connected |};
     {| request := ln "GET k"; arrival := 1;
        upstream := replying (ln KEY_ABSENT); client := connected |}] =
    (Listening, StoreValue "k" "" 0 ∅,
     [(0, Accepted); (0, CacheStore "k" ""); (0, SockOpen);
      (0, SockConnect SERVER_ADDRESS SERVER_PORT); (0, SockSendAll (ln "PUT k"));
      (0, SockReadCommand); (0, SockClose); (0, ClientSend (ln "OK"));
      (0, ClientClose);
      (1, Accepted); (1, CacheGet "k"); (1, SockOpen);
      (1, SockConnect SERVER_ADDRESS SERVER_PORT); (1, SockSendAll (ln "GET k"));
      (1, SockReadCommand); (1, SockClose); (1, ClientSend (ln KEY_ABSENT));
      (1, ClientClose)]%nat).
Proof. vm_compute. reflexivity. Qed.

(** C6 (the code departs from the claim): the payload of [PUT k] holds one
    byte above 127.  The payload is stored and a backend socket is opened
    and connected, but [command_line.encode()] raises UnicodeDecodeError
    under Python 2.7: the socket is closed with nothing sent, nothing is
    written to the client, and the exception leaves the accept loop.  The
    same happens to the reply when the command line is plain and the
    backend's response holds such a byte: the command is forwarded, the
    response is not written to the client. *)
Theorem PUT_with_high_byte_is_not_forwarded :
  Py.is_ascii (ln ("PUT k " +:+ cafe)) = false /\
  main library.ParseCommand
    (one_client (ln ("PUT k " +:+ cafe)) (replying (ln "OK"))) =
    (Died UnicodeDecodeError, StoreValue "k" cafe 0 ∅,
     [(0, Accepted); (0, CacheStore "k" cafe); (0, SockOpen);
      (0, SockConnect SERVER_ADDRESS SERVER_PORT); (0, SockClose);
      (0, ClientClose)]%nat) /\
  main library.ParseCommand
    (one_client (ln "PUT k v") (replying (ln cafe))) =
    (Died UnicodeDecodeError, StoreValue "k" "v" 0 ∅,
     [(0, Accepted); (0, CacheStore "k" "v"); (0, SockOpen);
      (0, SockConnect SERVER_ADDRESS SERVER_PORT);
      (0, SockSendAll (ln "PUT k v")); (0, SockReadCommand); (0, SockClose);
      (0, ClientClose)]%nat).
Proof. repeat split; vm_compute; reflexivity. Qed.

(** ** DUMP *)

(** C8 (the code departs from the claim): the backend answers [DUMP] with a
    listing that holds one byte above 127.  The command is forwarded and
    the cache is left alone, but [text.encode()] in SendText raises
    UnicodeDecodeError under Python 2.7: the backend's response is not
    written to the client, and the exception leaves the accept loop. *)
Theorem DUMP_listing_with_high_byte_is_not_relayed :
  Py.is_ascii (cafe +:+ ", x") = false /\
  main library.ParseCommand
    (one_client (ln "DUMP") (replying (ln (cafe +:+ ", x")))) =
    (Died UnicodeDecodeError, ∅,
     [(0, Accepted); (0, SockOpen);
      (0, SockConnect SERVER_ADDRESS SERVER_PORT);
      (0, SockSendAll (ln "DUMP")); (0, SockReadCommand); (0, SockClose);
      (0, ClientClose)]%nat).
Proof. split; vm_compute; reflexivity. Qed.

(** ** The accept loop *)

Lemma appends_ret {A} (a : A) : appends (ret a).
Proof.
  intros db before before' _. exists (Returns a), db, [].
  unfold ret. rewrite !app_nil_r. split; reflexivity.
Qed.

Lemma appends_raise {A} (e : exn) : appends (@raise A e).
Proof.
  intros db before before' _. exists (Raises e), db, [].
  unfold raise. rewrite !app_nil_r. split; reflexivity.
Qed.

Lemma appends_emit (e : event) : appends (emit e).
Proof.
  intros db before before' _. exists (Returns tt), db, [e].
  split; reflexivity.
Qed.

Lemma appends_bind {A B} (m : M A) (k : A -> M B) :
  appends m -> (forall a, appends (k a)) -> appends (bind m k).
Proof.
  intros Hm Hk db before before' Hlen. unfold bind.
  destruct (Hm db before before' Hlen) as (r & db1 & added & -> & ->).
  destruct r as [a|e].
  - assert (Hlen' : length (client_lines (before ++ added)) =
                    length (client_lines (before' ++ added)))
      by (rewrite !client_lines_app, !length_app, Hlen; reflexivity).
    destruct (Hk a db1 _ _ Hlen') as (r2 & db2 & added2 & -> & ->).
    exists r2, db2, (added ++ added2). rewrite !app_assoc. split; reflexivity.
  - exists (Raises e), db1, added. split; reflexivity.
Qed.

Lemma appends_try_finally {A} (body : M A) (cleanup : M unit) :
  appends body -> appends cleanup -> appends (try_finally body cleanup).
Proof.
  intros Hb Hc db before before' Hlen. unfold try_finally.
  destruct (Hb db before before' Hlen) as (r & db1 & added & -> & ->).
  assert (Hlen' : length (client_lines (before ++ added)) =
                  length (client_lines (before' ++ added)))
    by (rewrite !client_lines_app, !length_app, Hlen; reflexivity).
  destruct (Hc db1 _ _ Hlen') as (r2 & db2 & added2 & -> & ->).
  destruct r2 as [u|e].
  - exists r, db2, (added ++ added2). rewrite !app_assoc. split; reflexivity.
  - exists (Raises e), db2, (added ++ added2). rewrite !app_assoc.
    split; reflexivity.
Qed.

Lemma appends_cache_StoreValue (now : Z) (name text : string) :
  appends (cache_StoreValue now name text).
Proof.
  intros db before before' _.
  exists (Returns tt), (StoreValue name text now db), [CacheStore name text].
  split; reflexivity.
Qed.

Lemma appends_cache_GetValue (now : Z) (name : string) (max_age : Z) :
  appends (cache_GetValue now name max_age).
Proof.
  intros db before before' _.
  exists (Returns (GetValue name max_age now db)), db, [CacheGet name].
  split; reflexivity.
Qed.

Lemma appends_sock_send (sock : client_socket) (data : string) :
  appends (sock_send sock data).
Proof.
  intros db before before' Hlen. unfold sock_send. simpl. rewrite Hlen.
  eexists; eexists; eexists. split; reflexivity.
Qed.

Create HintDb appends.
#[local] Hint Resolve appends_ret appends_raise appends_emit appends_bind
  appends_try_finally appends_cache_StoreValue appends_cache_GetValue
  appends_sock_send : appends.

Ltac appends_cases :=
  repeat first
    [ progress (intros)
    | match goal with
      | |- appends (if ?b then _ else _) => destruct b
      | |- appends (match ?x with _ => _ end) => destruct x
      | |- appends (bind _ _) => apply appends_bind
      | |- appends (try_finally _ _) => apply appends_try_finally
      end
    | solve [auto with appends] ].

Lemma appends_encode (text : string) : appends (encode text).
Proof. unfold encode. appends_cases. Qed.

Lemma appends_ForwardCommandToServer (srv : backend)
    (msg_to_server : string * string * Z) :
  appends (ForwardCommandToServer srv msg_to_server).
Proof.
  destruct msg_to_server as [[command_line addr] port].
  unfold ForwardCommandToServer, sock_connect, sock_sendall, sock_ReadCommand,
    encode.
  appends_cases.
Qed.

Lemma appends_SendText (sock : client_socket) (text : string) :
  appends (SendText sock text).
Proof. unfold SendText, encode. appends_cases. Qed.

#[local] Hint Resolve appends_ForwardCommandToServer appends_SendText : appends.

(** ProxyClientCommand only ever appends to the trace, and runs after a
    trace without client writes as it does from the empty trace. *)
Lemma ProxyClientCommand_appends
    (parse : string -> string * string * string) (now : Z) (srv : backend)
    (sock : client_socket) (command_line addr : string) (port : Z)
    (db : KeyValueStore) (before : list event) :
  client_lines before = [] ->
  ProxyClientCommand parse now srv sock command_line addr port
    {| cache := db; trace := before |} =
  let (r, w) :=
    run (ProxyClientCommand parse now srv sock command_line addr port) db in
  (r, {| cache := cache w; trace := before ++ trace w |}).
Proof.
  intros Hbefore.
  assert (Happ : appends (ProxyClientCommand parse now srv sock command_line
                            addr port)).
  { unfold ProxyClientCommand, PutCommand, GetCommand, unbound_name.
    destruct (parse command_line) as [[cmd name] text].
    appends_cases. }
  destruct (Happ db before []) as (r & db' & added & -> & Hrun);
    [rewrite Hbefore; reflexivity|].
  unfold run. rewrite Hrun. reflexivity.
Qed.

Lemma serve_run (parse : string -> string * string * string) (c : connection)
    (db : KeyValueStore) :
  run (serve parse c) db =
  let (r, w) := run (ProxyClientCommand parse (arrival c) (upstream c) (client c)
                       (request c) SERVER_ADDRESS SERVER_PORT) db in
  (r, {| cache := cache w; trace := Accepted :: trace w ++ [ClientClose] |}).
Proof.
  unfold run at 1. unfold serve, bind, emit, try_finally. simpl.
  rewrite ProxyClientCommand_appends by reflexivity.
  destruct (run _ db) as [r w]. reflexivity.
Qed.

Lemma backend_fails_raises (srv : backend) (command_line : string) :
  backend_fails srv -> exists e, forward_result srv command_line = Raises e.
Proof.
  unfold backend_fails, forward_result.
  destruct srv as [[] [] [raw|]]; simpl;
    intros [H | [H | H]]; try discriminate;
    destruct (Py.is_ascii command_line); eauto.
Qed.

(** A forward that raises ends ProxyClientCommand with that exception and
    with no write to the client attempted. *)
Lemma failed_forward_run (parse : string -> string * string * string)
    (now : Z) (srv : backend) (sock : client_socket)
    (command_line cmd name text addr : string)
    (port : Z) (db : KeyValueStore) (e : exn) :
  parse command_line = (cmd, name, text) ->
  reaches_backend cmd name now db ->
  forward_result srv command_line = Raises e ->
  exists tr,
    run (ProxyClientCommand parse now srv sock command_line addr port) db =
      (Raises e,
       {| cache := if String.eqb cmd "PUT" then StoreValue name text now db else db;
          trace := tr |}) /\
    client_lines tr = [].
Proof.
  intros Hparse Hreach Hfail.
  pose proof (forward_events_no_reply srv command_line addr port) as Hnr.
  destruct Hreach as [-> | [-> | [-> Hmiss]]].
  - rewrite (PUT_run _ _ _ _ _ _ _ _ _ _ Hparse), Hfail.
    eexists. split; [reflexivity|exact Hnr].
  - rewrite (DUMP_run _ _ _ _ _ _ _ _ _ _ Hparse), Hfail.
    eexists. split; [reflexivity|exact Hnr].
  - rewrite (GET_miss_run _ _ _ _ _ _ _ _ _ _ Hparse Hmiss), Hfail.
    eexists. split; [reflexivity|exact Hnr].
Qed.

(** When contacting the backend raises an error, no write to the client is
    attempted, the client socket is closed, and the exception leaves the
    accept loop, so that no later connection is served; the cache is left
    as it was for GET and DUMP, and for PUT holds the payload stored before
    the forward. *)
Lemma backend_error_ends_the_accept_loop
    (parse : string -> string * string * string) (n : nat) (c : connection)
    (rest : list connection) (db : KeyValueStore) (cmd name text : string) :
  parse (request c) = (cmd, name, text) ->
  reaches_backend cmd name (arrival c) db ->
  backend_fails (upstream c) ->
  exists e tr,
    accept_loop parse n (c :: rest) db =
      (Died e,
       (if String.eqb cmd "PUT" then StoreValue name text (arrival c) db else db),
       map (pair n) tr) /\
    client_lines tr = [] /\
    last tr = Some ClientClose.
Proof.
  intros Hparse Hreach Hfails.
  destruct (backend_fails_raises _ (request c) Hfails) as [e He].
  destruct (failed_forward_run parse _ _ (client c) _ _ _ _ SERVER_ADDRESS
              SERVER_PORT _ _ Hparse Hreach He) as (tr & Hrun & Hno).
  exists e, (Accepted :: tr ++ [ClientClose]).
  split; [|split].
  - cbn [accept_loop]. rewrite serve_run, Hrun. reflexivity.
  - simpl. rewrite client_lines_app, Hno. reflexivity.
  - rewrite app_comm_cons. apply last_snoc.
Qed.

(** C2 (the code departs from the claim): the backend is unreachable and
    the cache misses.  No line at all is written to the client, let alone a
    failure response, and main dies with the socket error instead of
    waiting for the next connection; the second client is never served. *)
Theorem backend_down_no_reply_and_loop_dies :
  main library.ParseCommand down_then_dump =
    (Died SocketError, ∅,
     [(0, Accepted); (0, CacheGet "z"); (0, SockOpen);
      (0, SockConnect SERVER_ADDRESS SERVER_PORT); (0, ClientClose)]%nat) /\
  fst (fst (main library.ParseCommand down_then_dump)) <> Listening /\
  (forall n data,
      ~ In (n, ClientSend data) (snd (main library.ParseCommand down_then_dump))).
Proof.
  assert (Hmain : main library.ParseCommand down_then_dump =
    (Died SocketError, ∅,
     [(0, Accepted); (0, CacheGet "z"); (0, SockOpen);
      (0, SockConnect SERVER_ADDRESS SERVER_PORT); (0, ClientClose)]%nat))
    by (vm_compute; reflexivity).
  rewrite Hmain. split; [reflexivity|]. split; [discriminate|].
  intros n data Hin. simpl in Hin.
  repeat (destruct Hin as [Hin|Hin]; [discriminate|]). exact Hin.
Qed.

(** ** One connection at a time *)

Lemma in_turn_ordered (tr : list (nat * event)) :
  in_turn tr = true ->
  forall i j a b ea eb,
    (i < j)%nat -> tr !! i = Some (a, ea) -> tr !! j = Some (b, eb) ->
    (a <= b)%nat.
Proof.
  induction tr as [|[t e] tr IH]; intros Hturn i j a b ea eb Hij Hi Hj.
  - discriminate.
  - simpl in Hturn. apply andb_true_iff in Hturn as [Hall Hrest].
    destruct j as [|j]; [lia|]. simpl in Hj.
    destruct i as [|i].
    + injection Hi as <- <-.
      rewrite forallb_forall in Hall.
      apply list_elem_of_lookup_2, list_elem_of_In, Hall in Hj.
      simpl in Hj. apply Nat.leb_le in Hj. exact Hj.
    + simpl in Hi. apply (IH Hrest i j a b ea eb); [lia|exact Hi|exact Hj].
Qed.

Lemma in_turn_no_overlap (tr : list (nat * event)) :
  in_turn tr = true -> ~ overlap tr.
Proof.
  intros Hturn (i & j & a & b & ea & eb & Hij & Hi & Hj & Hlt).
  pose proof (in_turn_ordered tr Hturn i j b a eb ea Hij Hi Hj). lia.
Qed.

Lemma in_turn_app (xs ys : list (nat * event)) (n : nat) :
  in_turn xs = true -> in_turn ys = true ->
  Forall (fun x => (fst x <= n)%nat) xs ->
  Forall (fun y => (n <= fst y)%nat) ys ->
  in_turn (xs ++ ys) = true.
Proof.
  intros Hxs Hys Hle Hge. induction xs as [|[t e] xs IH]; [exact Hys|].
  simpl in *. apply andb_true_iff in Hxs as [Hall Hrest].
  inversion Hle as [|? ? Ht Hle']; subst. simpl in Ht.
  apply andb_true_iff. split; [|apply IH; assumption].
  rewrite forallb_app, Hall. simpl.
  apply forallb_forall. intros y Hy.
  rewrite Forall_forall in Hge. apply list_elem_of_In, Hge in Hy.
  apply Nat.leb_le. lia.
Qed.

Lemma in_turn_same_tag (n : nat) (tr : list event) :
  in_turn (map (pair n) tr) = true.
Proof.
  induction tr as [|e tr IH]; [reflexivity|].
  simpl. rewrite IH, andb_true_r.
  apply forallb_forall. intros x Hx. apply in_map_iff in Hx as (e' & <- & _).
  apply Nat.leb_refl.
Qed.

Lemma accept_loop_in_turn (parse : string -> string * string * string)
    (conns : list connection) (n : nat) (db : KeyValueStore) :
  let tr := snd (accept_loop parse n conns db) in
  in_turn tr = true /\ Forall (fun x => (n <= fst x)%nat) tr.
Proof.
  revert n db. induction conns as [|c rest IH]; intros n db; simpl.
  - split; [reflexivity|constructor].
  - destruct (run (serve parse c) db) as [[[]|e] w].
    + specialize (IH (S n) (cache w)).
      destruct (accept_loop parse (S n) rest (cache w)) as [[st db'] later].
      simpl in *. destruct IH as [Hturn Hge]. split.
      * apply (in_turn_app _ _ (S n)); [apply in_turn_same_tag|exact Hturn| |exact Hge].
        apply Forall_forall. intros x Hx.
        apply list_elem_of_In, in_map_iff in Hx as (e' & <- & _). simpl. lia.
      * apply Forall_app. split.
        -- apply Forall_forall. intros x Hx.
           apply list_elem_of_In, in_map_iff in Hx as (e' & <- & _). simpl. lia.
        -- eapply Forall_impl; [exact Hge|]. simpl. intros; lia.
    + simpl. split; [apply in_turn_same_tag|].
      apply Forall_forall. intros x Hx.
      apply list_elem_of_In, in_map_iff in Hx as (e' & <- & _). simpl. lia.
Qed.

(** C9, as amended: the accept loop handles one connection at a time; every
    call made for a connection, its backend round trip included, comes
    before every call made for a connection accepted after it. *)
Theorem accept_loop_serves_in_turn
    (parse : string -> string * string * string) (conns : list connection)
    (st : status) (db : KeyValueStore) (tr : list (nat * event))
    (i j a b : nat) (ea eb : event) :
  main parse conns = (st, db, tr) ->
  (i < j)%nat ->
  tr !! i = Some (a, ea) ->
  tr !! j = Some (b, eb) ->
  (a <= b)%nat.
Proof.
  intros Hmain Hij Hi Hj.
  destruct (accept_loop_in_turn parse conns 0 ∅) as [Hturn _].
  unfold main in Hmain. rewrite Hmain in Hturn. simpl in Hturn.
  exact (in_turn_ordered tr Hturn i j a b ea eb Hij Hi Hj).
Qed.

Lemma accept_loop_serves_in_turn_witness :
  exists tr,
    snd (main library.ParseCommand two_clients) = tr /\
    tr !! 6%nat = Some (0%nat, SockClose) /\
    tr !! 9%nat = Some (1%nat, Accepted) /\
    (0 <= 1)%nat.
Proof.
  eexists. split; [vm_compute; reflexivity|].
  split; [reflexivity|]. split; [reflexivity|].
  eapply (accept_loop_serves_in_turn library.ParseCommand two_clients
            _ _ _ 6 9 0 1 SockClose Accepted).
  - vm_compute. reflexivity.
  - lia.
  - reflexivity.
  - reflexivity.
Defined.

(** C9, as stated, fails: with two clients, the second is not even accepted
    until the first one's backend round trip is over and its socket closed;
    no call made for the second client comes before a call made for the
    first. *)
Lemma second_client_waits_for_first :
  snd (main library.ParseCommand two_clients) =
    [(0, Accepted); (0, CacheGet "x"); (0, SockOpen);
     (0, SockConnect SERVER_ADDRESS SERVER_PORT); (0, SockSendAll (ln "GET x"));
     (0, SockReadCommand); (0, SockClose); (0, ClientSend (ln KEY_ABSENT));
     (0, ClientClose);
     (1, Accepted); (1, ClientSend (ln "Unknown command FROB"));
     (1, ClientSend (ln "")); (1, ClientClose)]%nat /\
  ~ overlap (snd (main library.ParseCommand two_clients)).
Proof.
  split; [vm_compute; reflexivity|].
  apply in_turn_no_overlap. vm_compute. reflexivity.
Qed.


(** ** The reply line *)

(** What the forwarding client returns is the backend's line without
    newlines at either end. *)
Lemma forward_result_stripped (srv : backend) (command_line res : string) :
  forward_result srv command_line = Returns res ->
  exists raw,
    responds srv = Some raw /\ res = Py.strip Py.NL raw /\
    Py.first_char res <> Some Py.LF /\ Py.last_char res <> Some Py.LF.
Proof.
  unfold forward_result.
  destruct (accepts srv), (Py.is_ascii command_line), (receives srv),
    (responds srv) as [raw|]; try discriminate.
  intros [= <-]. exists raw. split; [reflexivity|]. split; [reflexivity|].
  apply strip_NL_ends.
Qed.

(** The line read from the backend is what the forwarding client returns
    with nothing but newlines before and after it. *)
Lemma forward_result_between_newlines (srv : backend)
    (command_line res : string) :
  forward_result srv command_line = Returns res ->
  exists raw pre post,
    responds srv = Some raw /\ res = Py.strip Py.NL raw /\
    raw = pre +:+ res +:+ post /\
    Py.all_in Py.NL pre = true /\ Py.all_in Py.NL post = true /\
    Py.first_char res <> Some Py.LF.
Proof.
  intros Hres.
  apply forward_result_stripped in Hres as (raw & Hraw & -> & Hfirst & _).
  destruct (strip_split Py.NL raw) as (pre & post & Hsplit & Hpre & Hpost).
  exists raw, pre, post. repeat split; assumption.
Qed.

Lemma served_from_cache_stored (name : string) (now : Z) (db : KeyValueStore)
    (v : string) :
  served_from_cache name now db = Some v ->
  exists e, db !! name = Some e /\ value e = v.
Proof.
  intros H. apply served_from_cache_Some in H as [H _].
  unfold GetValue in H. destruct (db !! name) as [e|]; [|discriminate].
  destruct (now - writtenAt e <=? MAX_CACHE_AGE_SEC); [|discriminate].
  injection H as <-. eauto.
Qed.

Lemma KEY_ABSENT_last : Py.last_char KEY_ABSENT <> Some Py.LF.
Proof. vm_compute. discriminate. Qed.

Lemma client_lines_after_forward (srv : backend) (command_line addr : string)
    (port : Z) (rest : list event) :
  client_lines (forward_events srv command_line addr port ++ rest) =
  client_lines rest.
Proof. rewrite client_lines_app, forward_events_no_reply. reflexivity. Qed.

(** C10: when the handling of a PUT, GET or DUMP completes, exactly one
    line has been written to the client, made of a body that does not end
    in a newline and of the one newline SendText appends.  The body is
    either a cached value, for a GET answered from the cache, or what is
    left of the backend's response once every newline before and after it
    is removed: the response is the body between two runs of newlines, and
    the body neither begins nor ends with a newline.  The cached values
    that a GET may return are those stored by PUT, which carry no trailing
    newline. *)
Theorem reply_ends_in_one_newline
    (parse : string -> string * string * string) (now : Z) (srv : backend)
    (sock : client_socket) (command_line cmd name text addr : string)
    (port : Z) (db : KeyValueStore) (w : world) :
  parse command_line = (cmd, name, text) ->
  cmd = "PUT" \/ cmd = "GET" \/ cmd = "DUMP" ->
  newline_free db ->
  run (ProxyClientCommand parse now srv sock command_line addr port) db =
    (Returns tt, w) ->
  exists body,
    client_lines (trace w) = [body +:+ Py.NL] /\
    one_newline_terminated (body +:+ Py.NL) /\
    Py.last_char body <> Some Py.LF /\
    ((cmd = "GET" /\ opened (trace w) = 0%nat /\
      exists e, db !! name = Some e /\ value e = body) \/
     (exists raw pre post,
         responds srv = Some raw /\ body = Py.strip Py.NL raw /\
         raw = pre +:+ body +:+ post /\
         Py.all_in Py.NL pre = true /\ Py.all_in Py.NL post = true /\
         Py.first_char body <> Some Py.LF)).
Proof.
  intros Hparse Hverb Hfree. revert w.
  by_verb Hparse; intros w Hrun;
    apply pair_equal_spec in Hrun as [Hr <-]; try discriminate;
    try (destruct Hverb as [E|[E|E]]; congruence); unfold trace.
  - (* PUT *)
    destruct (forward_result_stripped _ _ _ Hfw) as (raw0 & _ & _ & _ & Hlast).
    exists res. split; [|split; [|split]].
    + change (client_lines (forward_events srv command_line addr port ++
                            [ClientSend (res +:+ Py.NL)]) = [res +:+ Py.NL]).
      apply client_lines_after_forward.
    + apply line_one_newline, Hlast.
    + exact Hlast.
    + right. exact (forward_result_between_newlines _ _ _ Hfw).
  - (* GET answered from the cache *)
    apply served_from_cache_stored in Hserved as (e & He & <-).
    exists (value e). split; [reflexivity|]. split; [|split].
    + apply line_one_newline, (Hfree name e He).
    + apply (Hfree name e He).
    + left. split; [exact Hcmd|]. split; [reflexivity|]. eauto.
  - (* GET relaying the absent-key line *)
    apply String.eqb_eq in Habsent. subst res.
    exists KEY_ABSENT. split; [|split; [|split]].
    + change (client_lines (forward_events srv command_line addr port ++
                            [ClientSend (KEY_ABSENT +:+ Py.NL)]) =
              [KEY_ABSENT +:+ Py.NL]).
      apply client_lines_after_forward.
    + apply line_one_newline, KEY_ABSENT_last.
    + apply KEY_ABSENT_last.
    + right. exact (forward_result_between_newlines _ _ _ Hfw).
  - (* DUMP *)
    destruct (forward_result_stripped _ _ _ Hfw) as (raw0 & _ & _ & _ & Hlast).
    exists res. split; [|split; [|split]].
    + apply client_lines_after_forward.
    + apply line_one_newline, Hlast.
    + exact Hlast.
    + right. exact (forward_result_between_newlines _ _ _ Hfw).
Qed.

Lemma newline_free_empty : newline_free ∅.
Proof. intros key e H. rewrite lookup_empty in H. discriminate. Qed.

Lemma newline_free_StoreValue (name text : string) (now : Z)
    (db : KeyValueStore) :
  Py.last_char text <> Some Py.LF ->
  newline_free db -> newline_free (StoreValue name text now db).
Proof.
  intros Htext Hdb key e. unfold StoreValue. rewrite lookup_insert.
  case_decide.
  - intros [= <-]. exact Htext.
  - apply Hdb.
Qed.

Lemma reply_ends_in_one_newline_witness :
  exists w body raw pre post,
    run (ProxyClientCommand library.ParseCommand 0
           (replying (Py.NL +:+ Py.NL +:+ ln (ln "x, y"))) connected
           (ln "DUMP") SERVER_ADDRESS SERVER_PORT) ∅ = (Returns tt, w) /\
    client_lines (trace w) = [body +:+ Py.NL] /\
    Py.last_char body <> Some Py.LF /\
    Py.first_char body <> Some Py.LF /\
    Py.NL +:+ Py.NL +:+ ln (ln "x, y") = raw /\
    raw = pre +:+ body +:+ post /\
    Py.all_in Py.NL pre = true /\ Py.all_in Py.NL post = true.
Proof.
  eexists.
  assert (Hverb : "DUMP"%string = "PUT"%string \/ "DUMP"%string = "GET"%string \/
                  "DUMP"%string = "DUMP"%string) by (right; right; reflexivity).
  match goal with
  | |- exists body raw pre post, ?run = (_, ?w) /\ _ =>
      assert (Hrun : run = (Returns tt, w)) by (vm_compute; reflexivity);
      destruct (reply_ends_in_one_newline library.ParseCommand 0
                  (replying (Py.NL +:+ Py.NL +:+ ln (ln "x, y"))) connected
                  (ln "DUMP") "DUMP" "" "" SERVER_ADDRESS SERVER_PORT
                  ∅ w eq_refl Hverb newline_free_empty Hrun)
        as (body & Hlines & _ & Hlast & [(Hget & _)|Hbackend])
  end.
  - discriminate.
  - destruct Hbackend as (raw & pre & post & Hraw & _ & Hsplit & Hpre & Hpost & Hfirst).
    exists body, raw, pre, post. injection Hraw as Hraw.
    repeat split; assumption.
Defined.

(** ** Cached values carry no trailing newline *)

Lemma ProxyClientCommand_cache (parse : string -> string * string * string)
    (now : Z) (srv : backend) (sock : client_socket)
    (command_line cmd name text addr : string)
    (port : Z) (db : KeyValueStore) :
  parse command_line = (cmd, name, text) ->
  cache (snd (run (ProxyClientCommand parse now srv sock command_line
                     addr port) db)) =
    if String.eqb cmd "PUT" then StoreValue name text now db else db.
Proof.
  intros Hparse.
  by_verb Hparse; subst; try reflexivity;
    repeat match goal with
      | H : ?c <> _ |- context [String.eqb ?c ?k] =>
          apply String.eqb_neq in H; rewrite H
      end; reflexivity.
Qed.

Lemma split_nonempty (sep : ascii) (s : string) : Py.split sep s <> [].
Proof.
  destruct s as [|a s]; simpl; [discriminate|].
  destruct (Ascii.eqb a sep); [discriminate|].
  destruct (Py.split sep s); discriminate.
Qed.

(** Joining the fields of a split with the separator gives the string back. *)
Lemma join_split (sep : ascii) (s : string) :
  Py.join (String sep EmptyString) (Py.split sep s) = s.
Proof.
  induction s as [|a s IH]; [reflexivity|].
  simpl. destruct (Ascii.eqb_spec a sep) as [->|Hne].
  - pose proof (split_nonempty sep s) as Hs.
    destruct (Py.split sep s) as [|f fs]; [contradiction|].
    change (Py.join (String sep EmptyString) (EmptyString :: f :: fs))
      with (String sep (Py.join (String sep EmptyString) (f :: fs))).
    rewrite IH. reflexivity.
  - pose proof (split_nonempty sep s) as Hs.
    destruct (Py.split sep s) as [|f fs]; [contradiction|].
    destruct fs as [|g fs].
    + simpl in *. rewrite IH. reflexivity.
    + change (Py.join (String sep EmptyString) (String a f :: g :: fs))
        with (String a (Py.join (String sep EmptyString) (f :: g :: fs))).
      rewrite IH. reflexivity.
Qed.

(** The join of the fields from some index on is the tail of the join. *)
Lemma join_drop (sep : string) (fields : list string) (k : nat) :
  exists front, Py.join sep fields = front +:+ Py.join sep (drop k fields).
Proof.
  revert fields. induction k as [|k IH]; intros fields.
  - exists EmptyString. rewrite drop_0. reflexivity.
  - destruct fields as [|f fields]; [exists EmptyString; reflexivity|].
    rewrite skipn_cons. destruct (IH fields) as [front Hfront].
    destruct fields as [|g fields].
    + exists f. rewrite drop_nil. simpl. rewrite append_empty_r. reflexivity.
    + exists (f +:+ sep +:+ front).
      change (Py.join sep (f :: g :: fields))
        with (f +:+ sep +:+ Py.join sep (g :: fields)).
      rewrite Hfront, !append_assoc. reflexivity.
Qed.

(** The payload the tokenizer returns never ends in a newline. *)
Lemma ParseCommand_payload_last (command : string) :
  Py.last_char (snd (library.ParseCommand command)) <> Some Py.LF.
Proof.
  unfold library.ParseCommand.
  set (s := Py.strip Py.whitespace command).
  assert (Hs : Py.last_char s <> Some Py.LF).
  { intros H. apply rstrip_last in H. vm_compute in H. discriminate. }
  assert (Hpay : forall fields,
             snd (match fields with
                  | [] => (EmptyString, EmptyString, EmptyString)
                  | [cmd] => (cmd, EmptyString, EmptyString)
                  | cmd :: arg1 :: remainder =>
                      (cmd, arg1, Py.join " " remainder)
                  end) = Py.join " " (drop 2 fields)).
  { intros [|f [|g fs]]; reflexivity. }
  rewrite Hpay.
  destruct (join_drop " " (Py.split " "%char s) 2) as [front Hfront].
  change (Py.join " " (Py.split " "%char s))
    with (Py.join (String " "%char EmptyString) (Py.split " "%char s)) in Hfront.
  rewrite join_split in Hfront.
  intros Hlast. apply Hs. rewrite Hfront, last_char_app, Hlast. reflexivity.
Qed.

Lemma accept_loop_newline_free (parse : string -> string * string * string)
    (conns : list connection) (n : nat) (db : KeyValueStore) :
  (forall command, Py.last_char (snd (parse command)) <> Some Py.LF) ->
  newline_free db ->
  newline_free (snd (fst (accept_loop parse n conns db))).
Proof.
  intros Hparse. revert n db.
  induction conns as [|c rest IH]; intros n db Hdb; [exact Hdb|].
  cbn [accept_loop]. rewrite serve_run.
  destruct (parse (request c)) as [[cmd name] text] eqn:Hc.
  pose proof (ProxyClientCommand_cache parse (arrival c) (upstream c)
                (client c) _ _ _ _ SERVER_ADDRESS SERVER_PORT db Hc) as Hcache.
  assert (Hnext : newline_free
            (cache (snd (run (ProxyClientCommand parse (arrival c) (upstream c)
                                (client c) (request c) SERVER_ADDRESS
                                SERVER_PORT) db)))).
  { rewrite Hcache. destruct (String.eqb cmd "PUT"); [|exact Hdb].
    apply newline_free_StoreValue; [|exact Hdb].
    specialize (Hparse (request c)). rewrite Hc in Hparse. exact Hparse. }
  destruct (run _ db) as [[[]|e] w]; simpl in *.
  - specialize (IH (S n) (cache w) Hnext).
    destruct (accept_loop parse (S n) rest (cache w)) as [[st db'] later].
    exact IH.
  - exact Hnext.
Qed.

(** Every cache the accept loop reaches from the empty one, with the
    tokenizer of the library module, is free of trailing newlines. *)
Lemma main_cache_newline_free (conns : list connection) :
  newline_free (snd (fst (main library.ParseCommand conns))).
Proof.
  apply accept_loop_newline_free;
    [apply ParseCommand_payload_last|apply newline_free_empty].
Qed.

(** * Further properties of the proxy *)

(** ** ForwardCommandToServer *)

(** X1: once connect has succeeded, the backend socket is closed exactly
    once and as the last socket call, whether the exchange succeeds, the
    command line cannot be encoded, the send fails or the read fails. *)
Theorem forward_closes_socket_once_connected (srv : backend)
    (command_line addr : string) (port : Z) (db : KeyValueStore)
    (r : outcome string) (w : world) :
  accepts srv = true ->
  run (ForwardCommandToServer srv (command_line, addr, port)) db = (r, w) ->
  exists mid,
    trace w = SockOpen :: SockConnect addr port :: mid ++ [SockClose] /\
    opened mid = 0%nat /\ closed mid = 0%nat.
Proof.
  intros Hacc. unfold run. rewrite ForwardCommandToServer_run.
  intros Hrun. apply pair_equal_spec in Hrun as [_ <-].
  unfold trace, forward_events. rewrite Hacc.
  eexists. split; [reflexivity|].
  destruct (Py.is_ascii command_line), (receives srv); split; reflexivity.
Qed.

Lemma forward_closes_socket_once_connected_witness :
  exists r w mid,
    run (ForwardCommandToServer
           {| accepts := true; receives := true; responds := None |}
           (ln "GET x", SERVER_ADDRESS, SERVER_PORT)) ∅ = (r, w) /\
    r = Raises SocketError /\
    trace w = SockOpen :: SockConnect SERVER_ADDRESS SERVER_PORT ::
                mid ++ [SockClose].
Proof.
  eexists; eexists.
  match goal with
  | |- exists mid, ?run = (?r, ?w) /\ _ =>
      assert (Hrun : run = (r, w)) by (vm_compute; reflexivity);
      destruct (forward_closes_socket_once_connected
                  {| accepts := true; receives := true; responds := None |}
                  (ln "GET x") SERVER_ADDRESS SERVER_PORT ∅ r w eq_refl Hrun)
        as (mid & Htr & _)
  end.
  exists mid. split; [exact Hrun|]. split; [reflexivity|exact Htr].
Defined.

(** X2: whatever the backend does, one call of ForwardCommandToServer
    creates exactly one socket, leaves the cache as it is, makes no call on
    the cache and writes nothing to the client. *)
Theorem forward_leaves_cache_and_client_alone (srv : backend)
    (msg_to_server : string * string * Z) (before : world) :
  let w := snd (ForwardCommandToServer srv msg_to_server before) in
  cache w = cache before /\
  exists added,
    trace w = trace before ++ added /\
    opened added = 1%nat /\
    client_lines added = [] /\
    List.filter is_cache_event added = [].
Proof.
  destruct msg_to_server as [[command_line addr] port].
  rewrite ForwardCommandToServer_run. simpl.
  split; [reflexivity|].
  exists (forward_events srv command_line addr port).
  split; [reflexivity|].
  split; [apply forward_events_opened|].
  split; [apply forward_events_no_reply|apply forward_events_no_cache].
Qed.

(** X3: ForwardCommandToServer returns only when connect, send and read
    all succeeded on an encodable command line; what it returns is the line
    read from the backend with the newlines at both ends removed, and the
    socket calls were open, connect, one send of the command line, one
    read, close. *)
Theorem forward_returns_stripped_line (srv : backend)
    (command_line addr res : string) (port : Z) (db : KeyValueStore)
    (w : world) :
  run (ForwardCommandToServer srv (command_line, addr, port)) db =
    (Returns res, w) ->
  exists raw,
    srv = replying raw /\ Py.is_ascii command_line = true /\
    res = Py.strip Py.NL raw /\
    Py.first_char res <> Some Py.LF /\ Py.last_char res <> Some Py.LF /\
    w = {| cache := db;
           trace := [SockOpen; SockConnect addr port; SockSendAll command_line;
                     SockReadCommand; SockClose] |}.
Proof.
  unfold run. rewrite ForwardCommandToServer_run.
  unfold forward_result, forward_events.
  destruct srv as [[] [] [raw|]]; simpl;
    destruct (Py.is_ascii command_line); simpl; intros Hrun;
    apply pair_equal_spec in Hrun as [Hres <-]; try discriminate.
  injection Hres as <-. exists raw.
  destruct (strip_NL_ends raw) as [Hfirst Hlast].
  repeat split; assumption.
Qed.

Lemma forward_returns_stripped_line_witness :
  exists w raw,
    run (ForwardCommandToServer (replying (Py.NL +:+ ln "5"))
           (ln "GET x", SERVER_ADDRESS, SERVER_PORT)) ∅ = (Returns "5", w) /\
    replying (Py.NL +:+ ln "5") = replying raw /\
    "5"%string = Py.strip Py.NL raw.
Proof.
  eexists.
  match goal with
  | |- exists raw, ?run = (_, ?w) /\ _ =>
      assert (Hrun : run = (Returns "5", w)) by (vm_compute; reflexivity);
      destruct (forward_returns_stripped_line (replying (Py.NL +:+ ln "5"))
                  (ln "GET x") SERVER_ADDRESS "5" SERVER_PORT ∅ w Hrun)
        as (raw & Hsrv & _ & Hres & _)
  end.
  exists raw. split; [exact Hrun|]. split; [exact Hsrv|exact Hres].
Defined.

(** X4: nothing but the command line itself is ever sent to the backend,
    and only after connect succeeded and the line was encoded: a command
    line holding a byte above 127 is never sent. *)
Theorem forward_sends_only_the_command_line (srv : backend)
    (command_line addr data : string) (port : Z) (db : KeyValueStore)
    (r : outcome string) (w : world) :
  run (ForwardCommandToServer srv (command_line, addr, port)) db = (r, w) ->
  In (SockSendAll data) (trace w) ->
  data = command_line /\ accepts srv = true /\ Py.is_ascii command_line = true.
Proof.
  unfold run. rewrite ForwardCommandToServer_run.
  intros Hrun. apply pair_equal_spec in Hrun as [_ <-].
  unfold trace, forward_events.
  destruct (accepts srv), (Py.is_ascii command_line), (receives srv); simpl;
    intros Hin;
    repeat (destruct Hin as [Hin|Hin]; [try discriminate|]);
    try contradiction;
    injection Hin as <-; repeat split.
Qed.

Lemma forward_sends_only_the_command_line_witness :
  exists r w,
    run (ForwardCommandToServer (replying (ln "OK"))
           (ln "PUT a b", SERVER_ADDRESS, SERVER_PORT)) ∅ = (r, w) /\
    In (SockSendAll (ln "PUT a b")) (trace w) /\
    Py.is_ascii (ln "PUT a b") = true.
Proof.
  eexists; eexists.
  match goal with
  | |- ?run = (?r, ?w) /\ _ =>
      assert (Hrun : run = (r, w)) by (vm_compute; reflexivity);
      assert (Hin : In (SockSendAll (ln "PUT a b")) (trace w))
        by (right; right; left; reflexivity);
      destruct (forward_sends_only_the_command_line (replying (ln "OK"))
                  (ln "PUT a b") SERVER_ADDRESS (ln "PUT a b") SERVER_PORT ∅
                  r w Hrun Hin) as (_ & _ & Hascii)
  end.
  split; [exact Hrun|]. split; [exact Hin|exact Hascii].
Defined.

(** ** ProxyClientCommand *)

(** X5: when handling a command ends in an exception, either no write to
    the client was attempted, or the exception is the socket error of the
    last write attempted, which the client did not take while it took every
    write before it.  So with a client that takes every write an exception
    means that nothing was written; an unknown verb whose first line was
    taken can still fail on the second write. *)
Theorem no_reply_when_handling_raises
    (parse : string -> string * string * string) (now : Z) (srv : backend)
    (sock : client_socket) (command_line addr : string) (port : Z)
    (db : KeyValueStore) (e : exn) (w : world) :
  run (ProxyClientCommand parse now srv sock command_line addr port) db =
    (Raises e, w) ->
  client_lines (trace w) = [] \/
  (e = SocketError /\
   exists n,
     length (client_lines (trace w)) = S n /\ sock n = false /\
     forall i, (i < n)%nat -> sock i = true).
Proof.
  destruct (parse command_line) as [[cmd name] text] eqn:Hparse.
  revert e w.
  pose proof (forward_events_no_reply srv command_line addr port) as Hnr.
  by_verb Hparse; intros e' w' Hrun;
    apply pair_equal_spec in Hrun as [Hr <-]; try discriminate;
    unfold trace;
    repeat match goal with
      | |- context [client_lines (?k :: forward_events ?s ?c ?a ?p ++ ?l)] =>
          change (client_lines (k :: forward_events s c a p ++ l))
            with (client_lines (forward_events s c a p ++ l))
      | |- context [client_lines (?k :: forward_events ?s ?c ?a ?p)] =>
          change (client_lines (k :: forward_events s c a p))
            with (client_lines (forward_events s c a p))
      end;
    rewrite ?client_lines_after_forward, ?Hnr;
    try (left; reflexivity);
    right; injection Hr as <-; (split; [reflexivity|]);
    first [ exists 0%nat; split; [reflexivity|]; split; [assumption|];
            intros i Hi; lia
          | exists 1%nat; split; [reflexivity|]; split; [assumption|];
            intros i Hi; assert (i = 0%nat) as -> by lia; assumption ].
Qed.

Lemma no_reply_when_handling_raises_witness :
  exists e w,
    run (ProxyClientCommand library.ParseCommand 0 unreachable
           (hangs_up_after 1) (ln "FROB z") SERVER_ADDRESS SERVER_PORT) ∅ =
      (Raises e, w) /\
    client_lines (trace w) = [ln "Unknown command FROB"; ln ""] /\
    (client_lines (trace w) = [] \/
     (e = SocketError /\
      exists n,
        length (client_lines (trace w)) = S n /\
        hangs_up_after 1 n = false /\
        forall i, (i < n)%nat -> hangs_up_after 1 i = true)).
Proof.
  eexists; eexists.
  match goal with
  | |- ?run = (Raises ?e, ?w) /\ _ =>
      assert (Hrun : run = (Raises e, w)) by (vm_compute; reflexivity);
      split; [exact Hrun|]; split; [reflexivity|];
      exact (no_reply_when_handling_raises library.ParseCommand 0 unreachable
               (hangs_up_after 1) (ln "FROB z") SERVER_ADDRESS SERVER_PORT ∅
               e w Hrun)
  end.
Defined.

(** X6: handling one command opens at most one backend socket, whatever
    the verb; the socket is closed exactly when connect succeeded, so the
    only socket ever left open is one whose connect was refused. *)
Theorem at_most_one_backend_socket_per_command
    (parse : string -> string * string * string) (now : Z) (srv : backend)
    (sock : client_socket) (command_line addr : string) (port : Z)
    (db : KeyValueStore) :
  let tr := trace (snd (run (ProxyClientCommand parse now srv sock command_line
                               addr port) db)) in
  (opened tr <= 1)%nat /\
  closed tr = (if accepts srv then opened tr else 0%nat).
Proof.
  destruct (parse command_line) as [[cmd name] text] eqn:Hparse.
  pose proof (forward_events_opened srv command_line addr port) as Ho.
  pose proof (forward_events_closed srv command_line addr port) as Hc.
  by_verb Hparse; unfold snd, trace;
    repeat match goal with
      | |- context [opened (?k :: forward_events ?s ?c ?a ?p ++ ?l)] =>
          change (opened (k :: forward_events s c a p ++ l))
            with (opened (forward_events s c a p ++ l));
          change (closed (k :: forward_events s c a p ++ l))
            with (closed (forward_events s c a p ++ l))
      | |- context [opened (?k :: forward_events ?s ?c ?a ?p)] =>
          change (opened (k :: forward_events s c a p))
            with (opened (forward_events s c a p));
          change (closed (k :: forward_events s c a p))
            with (closed (forward_events s c a p))
      end;
    rewrite ?opened_app, ?closed_app, ?Ho, ?Hc;
    destruct (accepts srv); simpl; split; lia.
Qed.

(** Walks a membership hypothesis through a trace built from conses,
    appends and the socket calls of one forward. *)
Ltac no_store Hin :=
  repeat match type of Hin with
    | In _ (forward_events _ _ _ _) =>
        exact (forward_events_no_store _ _ _ _ _ _ Hin)
    | In _ (_ ++ _) => apply in_app_or in Hin; destruct Hin as [Hin|Hin]
    | In _ (_ :: _) =>
        apply in_inv in Hin; destruct Hin as [Hin|Hin]; [discriminate|]
    | In _ [] => contradiction
    end.

(** X7: no command other than PUT changes the cache or calls StoreValue,
    whatever the backend answers: a GET never fills the cache, not even
    after a successful fetch, and never refreshes an entry. *)
Theorem only_PUT_changes_the_cache
    (parse : string -> string * string * string) (now : Z) (srv : backend)
    (sock : client_socket) (command_line cmd name text addr : string)
    (port : Z) (db : KeyValueStore) (r : outcome unit) (w : world) :
  parse command_line = (cmd, name, text) ->
  cmd <> "PUT" ->
  run (ProxyClientCommand parse now srv sock command_line addr port) db =
    (r, w) ->
  cache w = db /\ forall k v, ~ In (CacheStore k v) (trace w).
Proof.
  intros Hparse Hnot. revert r w.
  by_verb Hparse; try contradiction; intros r' w' Hrun;
    apply pair_equal_spec in Hrun as [_ <-];
    (split; [reflexivity|]); intros k v' Hin; unfold trace in Hin;
    no_store Hin.
Qed.

Lemma only_PUT_changes_the_cache_witness :
  exists r w,
    run (ProxyClientCommand library.ParseCommand 100 (replying (ln "7"))
           connected (ln "GET x") SERVER_ADDRESS SERVER_PORT)
        (StoreValue "x" "5" 0 ∅) = (r, w) /\
    cache w = StoreValue "x" "5" 0 ∅.
Proof.
  eexists; eexists.
  match goal with
  | |- ?run = (?r, ?w) /\ _ =>
      assert (Hrun : run = (r, w)) by (vm_compute; reflexivity);
      split; [exact Hrun|];
      apply (only_PUT_changes_the_cache library.ParseCommand 100
               (replying (ln "7")) connected (ln "GET x") "GET" "x" ""
               SERVER_ADDRESS SERVER_PORT (StoreValue "x" "5" 0 ∅) r w
               eq_refl)
  end.
  - discriminate.
  - exact Hrun.
Defined.

(** X8: a GET whose handling completes has replied either a non-empty
    value that GetValue returned, without any socket call, or exactly the
    absent-key line after the backend answered it; no other backend answer
    ever reaches the client through GET. *)
Theorem completed_GET_replies_cached_value_or_absence
    (parse : string -> string * string * string) (now : Z) (srv : backend)
    (sock : client_socket) (command_line name text addr : string) (port : Z)
    (db : KeyValueStore) (w : world) :
  parse command_line = ("GET", name, text) ->
  run (ProxyClientCommand parse now srv sock command_line addr port) db =
    (Returns tt, w) ->
  (exists v,
      GetValue name MAX_CACHE_AGE_SEC now db = Some v /\ v <> EmptyString /\
      trace w = [CacheGet name; ClientSend (v +:+ Py.NL)]) \/
  (exists raw,
      responds srv = Some raw /\ Py.strip Py.NL raw = KEY_ABSENT /\
      client_lines (trace w) = [KEY_ABSENT +:+ Py.NL]).
Proof.
  intros Hparse. revert w.
  by_verb Hparse; try congruence; intros w Hrun;
    apply pair_equal_spec in Hrun as [Hr <-]; try discriminate.
  - left. exists v. apply served_from_cache_Some in Hserved as [Hget Hne].
    split; [exact Hget|]. split; [exact Hne|reflexivity].
  - right. apply String.eqb_eq in Habsent. subst res.
    apply forward_result_stripped in Hfw as (raw & Hraw & Hres & _).
    exists raw. split; [exact Hraw|]. split; [symmetry; exact Hres|].
    unfold trace.
    change (client_lines (forward_events srv command_line addr port ++
              [ClientSend (KEY_ABSENT +:+ Py.NL)]) = [KEY_ABSENT +:+ Py.NL]).
    apply client_lines_after_forward.
Qed.

Lemma completed_GET_replies_cached_value_or_absence_witness :
  exists w,
    run (ProxyClientCommand library.ParseCommand 0 (replying (ln KEY_ABSENT))
           connected (ln "GET x") SERVER_ADDRESS SERVER_PORT) ∅ =
      (Returns tt, w) /\
    ((exists v,
         GetValue "x" MAX_CACHE_AGE_SEC 0 ∅ = Some v /\ v <> EmptyString /\
         trace w = [CacheGet "x"; ClientSend (v +:+ Py.NL)]) \/
     (exists raw,
         responds (replying (ln KEY_ABSENT)) = Some raw /\
         Py.strip Py.NL raw = KEY_ABSENT /\
         client_lines (trace w) = [KEY_ABSENT +:+ Py.NL])).
Proof.
  eexists.
  match goal with
  | |- ?run = (_, ?w) /\ _ =>
      assert (Hrun : run = (Returns tt, w)) by (vm_compute; reflexivity);
      split; [exact Hrun|];
      exact (completed_GET_replies_cached_value_or_absence
               library.ParseCommand 0 (replying (ln KEY_ABSENT)) connected
               (ln "GET x") "x" "" SERVER_ADDRESS SERVER_PORT ∅ w eq_refl Hrun)
  end.
Defined.

(** X9: when GetValue returns a non-empty value for the key, that value
    followed by one newline is the one write made on the client socket,
    and handling returns when the client takes it; the backend is not
    contacted, whatever state it is in, and the cache is left as it was. *)
Theorem GET_hit_answers_without_backend
    (parse : string -> string * string * string) (now : Z) (srv : backend)
    (sock : client_socket) (command_line name text addr v : string)
    (port : Z) (db : KeyValueStore) :
  parse command_line = ("GET", name, text) ->
  GetValue name MAX_CACHE_AGE_SEC now db = Some v ->
  v <> EmptyString ->
  Py.is_ascii v = true ->
  run (ProxyClientCommand parse now srv sock command_line addr port) db =
    (if sock 0%nat then Returns tt else Raises SocketError,
     {| cache := db; trace := [CacheGet name; ClientSend (v +:+ Py.NL)] |}).
Proof.
  intros Hparse Hget Hne Hv.
  apply (GET_hit_run _ _ _ _ _ _ _ _ _ _ _ Hparse); [|exact Hv].
  unfold served_from_cache. rewrite Hget.
  destruct v; [contradiction|reflexivity].
Qed.

Lemma GET_hit_answers_without_backend_witness :
  run (ProxyClientCommand library.ParseCommand 60 unreachable connected
         (ln "GET x") SERVER_ADDRESS SERVER_PORT) (StoreValue "x" "5" 0 ∅) =
    (Returns tt,
     {| cache := StoreValue "x" "5" 0 ∅;
        trace := [CacheGet "x"; ClientSend (ln "5")] |}).
Proof.
  apply (GET_hit_answers_without_backend library.ParseCommand 60 unreachable
           connected (ln "GET x") "x" "" SERVER_ADDRESS "5" SERVER_PORT
           (StoreValue "x" "5" 0 ∅)).
  - reflexivity.
  - vm_compute. reflexivity.
  - discriminate.
  - reflexivity.
Defined.

(** X10: when GetValue gives nothing usable and the backend answers with
    the absent-key line, with or without newlines around it, that line is
    written to the client after exactly one exchange, handling returns when
    the client takes it, and the cache is left as it was. *)
Theorem GET_miss_relays_absent_key
    (parse : string -> string * string * string) (now : Z) (raw : string)
    (sock : client_socket) (command_line name text addr : string) (port : Z)
    (db : KeyValueStore) :
  parse command_line = ("GET", name, text) ->
  served_from_cache name now db = None ->
  Py.is_ascii command_line = true ->
  Py.strip Py.NL raw = KEY_ABSENT ->
  run (ProxyClientCommand parse now (replying raw) sock command_line
         addr port) db =
    (if sock 0%nat then Returns tt else Raises SocketError,
     {| cache := db;
        trace := [CacheGet name; SockOpen; SockConnect addr port;
                  SockSendAll command_line; SockReadCommand; SockClose;
                  ClientSend (KEY_ABSENT +:+ Py.NL)] |}).
Proof.
  intros Hparse Hmiss Hcl Hraw.
  rewrite (GET_miss_absent_key_relayed _ _ _ _ _ _ _ _ _ _ Hparse Hmiss).
  - unfold forward_events. simpl. rewrite Hcl. reflexivity.
  - unfold forward_result. simpl. rewrite Hcl, Hraw. reflexivity.
Qed.

Lemma GET_miss_relays_absent_key_witness :
  run (ProxyClientCommand library.ParseCommand 0
         (replying (Py.NL +:+ ln KEY_ABSENT)) connected (ln "GET x")
         SERVER_ADDRESS SERVER_PORT) ∅ =
    (Returns tt,
     {| cache := ∅;
        trace := [CacheGet "x"; SockOpen;
                  SockConnect SERVER_ADDRESS SERVER_PORT;
                  SockSendAll (ln "GET x"); SockReadCommand; SockClose;
                  ClientSend (ln KEY_ABSENT)] |}).
Proof.
  apply (GET_miss_relays_absent_key library.ParseCommand 0
           (Py.NL +:+ ln KEY_ABSENT) connected (ln "GET x") "x" ""
           SERVER_ADDRESS SERVER_PORT ∅); reflexivity.
Defined.

(** X11: a verb other than PUT, GET and DUMP, compared byte for byte (so
    [put] or [Get] too), is never forwarded: no socket is opened and no
    call is made on the cache, whatever the backend, the cache and the
    client are.  When the verb is plain ASCII the first write on the client
    socket is the line naming the verb as received and, if the client took
    it, a second write of an empty line follows; handling returns when both
    were taken.  A verb holding a byte above 127 gets no line at all:
    UnicodeDecodeError is raised before anything is written. *)
Theorem unknown_verb_answered_locally
    (parse : string -> string * string * string) (now : Z) (srv : backend)
    (sock : client_socket) (command_line cmd name text addr : string)
    (port : Z) (db : KeyValueStore) (r : outcome unit) (w : world) :
  parse command_line = (cmd, name, text) ->
  cmd <> "PUT" -> cmd <> "GET" -> cmd <> "DUMP" ->
  run (ProxyClientCommand parse now srv sock command_line addr port) db =
    (r, w) ->
  cache w = db /\
  opened (trace w) = 0%nat /\
  List.filter is_cache_event (trace w) = [] /\
  client_lines (trace w) =
    (if Py.is_ascii cmd then
       (("Unknown command " +:+ cmd) +:+ Py.NL) ::
       (if sock 0%nat then [Py.NL] else [])
     else []) /\
  r = (if Py.is_ascii cmd then
         if sock 0%nat && sock 1%nat then Returns tt else Raises SocketError
       else Raises UnicodeDecodeError).
Proof.
  intros Hparse Hput Hget Hdump.
  rewrite (unknown_verb_run_any _ _ _ _ _ _ _ _ _ _ _ Hparse Hput Hget Hdump).
  destruct (Py.is_ascii cmd); [destruct (sock 0%nat); [destruct (sock 1%nat)|]|];
    intros Hrun; apply pair_equal_spec in Hrun as [<- <-]; repeat split.
Qed.

Lemma unknown_verb_answered_locally_witness :
  exists r w,
    run (ProxyClientCommand library.ParseCommand 0 unreachable connected
           (ln (cafe +:+ " a b")) SERVER_ADDRESS SERVER_PORT) ∅ = (r, w) /\
    cache w = ∅ /\
    opened (trace w) = 0%nat /\
    client_lines (trace w) = [] /\
    r = Raises UnicodeDecodeError.
Proof.
  eexists; eexists.
  match goal with
  | |- ?run = (?r, ?w) /\ _ =>
      assert (Hrun : run = (r, w)) by (vm_compute; reflexivity);
      split; [exact Hrun|];
      destruct (unknown_verb_answered_locally library.ParseCommand 0
                  unreachable connected (ln (cafe +:+ " a b")) cafe "a" "b"
                  SERVER_ADDRESS SERVER_PORT ∅ r w)
        as (Hc & Ho & _ & Hl & Hr);
      [ vm_compute; reflexivity | discriminate | discriminate | discriminate
      | exact Hrun | ]
  end.
  split; [exact Hc|]. split; [exact Ho|]. split; [exact Hl|exact Hr].
Defined.

(** X12: read-your-write for a non-empty ASCII payload: when the PUT of
    one client has been handled without an exception, a GET of the same key
    by the next client, at most MAX_CACHE_AGE_SEC later, is answered with
    the payload (the client taking the write) and opens no socket, whatever
    the backend does by then; main goes on listening. *)
Theorem GET_after_PUT_reads_the_payload
    (parse : string -> string * string * string) (n : nat)
    (c1 c2 : connection) (db : KeyValueStore) (k v ignored : string)
    (w1 : world) :
  parse (request c1) = ("PUT", k, v) ->
  parse (request c2) = ("GET", k, ignored) ->
  v <> EmptyString ->
  Py.is_ascii v = true ->
  arrival c2 - arrival c1 <= MAX_CACHE_AGE_SEC ->
  run (serve parse c1) db = (Returns tt, w1) ->
  client c2 0%nat = true ->
  cache w1 = StoreValue k v (arrival c1) db /\
  accept_loop parse n [c1; c2] db =
    (Listening, cache w1,
     map (pair n) (trace w1) ++
     map (pair (S n))
       [Accepted; CacheGet k; ClientSend (v +:+ Py.NL); ClientClose]).
Proof.
  intros Hput Hget Hne Hv Hage Hserve Htakes.
  assert (Hc : cache w1 = StoreValue k v (arrival c1) db).
  { pose proof (PUT_cache parse (arrival c1) (upstream c1) (client c1) _ _ _
                  SERVER_ADDRESS SERVER_PORT db Hput) as Hcache.
    rewrite serve_run in Hserve.
    destruct (run (ProxyClientCommand parse (arrival c1) (upstream c1)
                     (client c1) (request c1) SERVER_ADDRESS SERVER_PORT) db)
      as [r w].
    apply pair_equal_spec in Hserve as [_ <-]. exact Hcache. }
  split; [exact Hc|].
  cbn [accept_loop]. rewrite Hserve. rewrite serve_run.
  rewrite (GET_hit_run parse (arrival c2) (upstream c2) (client c2)
             (request c2) k ignored SERVER_ADDRESS SERVER_PORT (cache w1) v
             Hget); [| |exact Hv].
  - rewrite Htakes. reflexivity.
  - unfold served_from_cache.
    rewrite Hc, (GetValue_StoreValue _ _ _ _ _ Hage).
    destruct v; [contradiction|reflexivity].
Qed.

Lemma GET_after_PUT_reads_the_payload_witness :
  main library.ParseCommand put_then_get =
    (Listening, StoreValue "y" "hello world" 0 ∅,
     [(0, Accepted); (0, CacheStore "y" "hello world"); (0, SockOpen);
      (0, SockConnect SERVER_ADDRESS SERVER_PORT);
      (0, SockSendAll (ln "PUT y hello world")); (0, SockReadCommand);
      (0, SockClose); (0, ClientSend (ln "OK")); (0, ClientClose);
      (1, Accepted); (1, CacheGet "y"); (1, ClientSend (ln "hello world"));
      (1, ClientClose)]%nat).
Proof.
  destruct (GET_after_PUT_reads_the_payload library.ParseCommand 0
              {| request := ln "PUT y hello world"; arrival := 0;
                 upstream := replying (ln "OK"); client := connected |}
              {| request := ln "GET y"; arrival := 30; upstream := unreachable;
                 client := connected |}
              ∅ "y" "hello world" ""
              {| cache := StoreValue "y" "hello world" 0 ∅;
                 trace := [Accepted; CacheStore "y" "hello world"; SockOpen;
                           SockConnect SERVER_ADDRESS SERVER_PORT;
                           SockSendAll (ln "PUT y hello world");
                           SockReadCommand; SockClose; ClientSend (ln "OK");
                           ClientClose] |})
    as [_ Hloop].
  - reflexivity.
  - reflexivity.
  - discriminate.
  - reflexivity.
  - vm_compute. discriminate.
  - vm_compute. reflexivity.
  - reflexivity.
  - exact Hloop.
Defined.

(** ** DumpCommand *)

Lemma dump_fold_acc (keys : list string) (acc : string) :
  fold_left (fun csv key => csv +:+ key +:+ ", ") keys acc =
  acc +:+ fold_left (fun csv key => csv +:+ key +:+ ", ") keys EmptyString.
Proof.
  revert acc. induction keys as [|k keys IH]; intros acc.
  - simpl. rewrite append_empty_r. reflexivity.
  - simpl. rewrite (IH (acc +:+ k +:+ ", ")), (IH (EmptyString +:+ k +:+ ", ")).
    change (EmptyString +:+ k +:+ ", ") with (k +:+ ", ").
    rewrite !append_assoc. reflexivity.
Qed.

Lemma dump_fold_join (keys : list string) :
  keys <> [] ->
  fold_left (fun csv key => csv +:+ key +:+ ", ") keys EmptyString =
  Py.join ", " keys +:+ ", ".
Proof.
  induction keys as [|k keys IH]; intros Hne; [contradiction|].
  simpl fold_left. rewrite dump_fold_acc.
  change (EmptyString +:+ k +:+ ", ") with (k +:+ ", ").
  destruct keys as [|k' keys].
  - simpl. rewrite append_empty_r. reflexivity.
  - rewrite IH by discriminate.
    change (Py.join ", " (k :: k' :: keys))
      with (k +:+ ", " +:+ Py.join ", " (k' :: keys)).
    rewrite !append_assoc. reflexivity.
Qed.

Lemma rstrip_app_all (chars a b : string) :
  Py.rstrip chars b = EmptyString ->
  Py.rstrip chars (a +:+ b) = Py.rstrip chars a.
Proof.
  intros Hb. induction a as [|c a IH]; [exact Hb|].
  change (String c a +:+ b) with (String c (a +:+ b)).
  simpl. rewrite IH. reflexivity.
Qed.

Lemma rstrip_clean (chars s : string) (c : ascii) :
  Py.last_char s = Some c -> Py.in_chars c chars = false ->
  Py.rstrip chars s = s.
Proof.
  intros Hlast Hc. induction s as [|a s IH]; [reflexivity|].
  rewrite last_char_cons in Hlast. simpl.
  destruct (Py.last_char s) as [d|] eqn:Hs.
  - rewrite (IH Hlast). destruct s; [discriminate|reflexivity].
  - injection Hlast as ->. destruct s as [|x s].
    + simpl. rewrite Hc. reflexivity.
    + rewrite last_char_cons in Hs. destruct (Py.last_char s); discriminate.
Qed.

Lemma lstrip_clean (chars s : string) (c : ascii) :
  Py.first_char s = Some c -> Py.in_chars c chars = false ->
  Py.lstrip chars s = s.
Proof.
  destruct s as [|a s]; [discriminate|]. simpl. intros [= ->] ->. reflexivity.
Qed.

Lemma first_char_app (a b : string) (c : ascii) :
  Py.first_char a = Some c -> Py.first_char (a +:+ b) = Some c.
Proof. destruct a; [discriminate|]. intros H. exact H. Qed.

Lemma first_char_join (sep : string) (keys : list string) (k : string)
    (c : ascii) :
  hd_error keys = Some k -> Py.first_char k = Some c ->
  Py.first_char (Py.join sep keys) = Some c.
Proof.
  destruct keys as [|k0 [|k1 keys]]; intros [= ->] Hc; [exact Hc|].
  apply first_char_app. exact Hc.
Qed.

Lemma last_char_join (sep : string) (keys : list string) (k : string)
    (c : ascii) :
  last keys = Some k -> Py.last_char k = Some c ->
  Py.last_char (Py.join sep keys) = Some c.
Proof.
  induction keys as [|k0 keys IH]; [discriminate|].
  destruct keys as [|k1 keys].
  - intros [= ->] Hc. exact Hc.
  - intros Hlast Hc.
    change (Py.join sep (k0 :: k1 :: keys))
      with (k0 +:+ sep +:+ Py.join sep (k1 :: keys)).
    rewrite !last_char_app, (IH Hlast Hc). reflexivity.
Qed.

(** X13: when the first key does not begin and the last key does not end
    with a comma or a space (both being non-empty), DumpCommand returns the
    keys in the order Keys yields them, joined by a comma and a space, with
    nothing before or after. *)
Theorem DumpCommand_joins_the_keys (Keys : KeyValueStore -> list string)
    (database : KeyValueStore) (k_first k_last : string) (a b : ascii) :
  hd_error (Keys database) = Some k_first ->
  Py.first_char k_first = Some a -> Py.in_chars a ", " = false ->
  last (Keys database) = Some k_last ->
  Py.last_char k_last = Some b -> Py.in_chars b ", " = false ->
  DumpCommand Keys database = Py.join ", " (Keys database).
Proof.
  intros Hhd Ha Hac Hlast Hb Hbc. unfold DumpCommand.
  rewrite dump_fold_join by (intros E; rewrite E in Hhd; discriminate).
  unfold Py.strip.
  rewrite (lstrip_clean _ _ a);
    [|apply first_char_app, (first_char_join _ _ _ _ Hhd Ha)|exact Hac].
  rewrite rstrip_app_all by reflexivity.
  apply (rstrip_clean _ _ b); [|exact Hbc].
  apply (last_char_join _ _ _ _ Hlast Hb).
Qed.

Lemma DumpCommand_joins_the_keys_witness :
  DumpCommand (fun _ => ["x"; "user name"; "y"]) ∅ = "x, user name, y".
Proof.
  apply (DumpCommand_joins_the_keys (fun _ => ["x"; "user name"; "y"]) ∅
           "x" "y" "x"%char "y"%char); reflexivity.
Defined.

(** X14: whatever the keys are, the text DumpCommand returns neither
    begins nor ends with a comma or a space: the final strip also eats such
    characters when they belong to the first or the last key. *)
Theorem DumpCommand_has_bare_ends (Keys : KeyValueStore -> list string)
    (database : KeyValueStore) :
  Py.first_char (DumpCommand Keys database) <> Some ","%char /\
  Py.first_char (DumpCommand Keys database) <> Some " "%char /\
  Py.last_char (DumpCommand Keys database) <> Some ","%char /\
  Py.last_char (DumpCommand Keys database) <> Some " "%char.
Proof.
  unfold DumpCommand, Py.strip.
  repeat split; intros H;
    first [ apply rstrip_first, lstrip_first in H | apply rstrip_last in H ];
    discriminate.
Qed.

Lemma lstrip_app_all (chars a b : string) :
  Py.rstrip chars a = EmptyString ->
  Py.lstrip chars (a +:+ b) = Py.lstrip chars b.
Proof.
  induction a as [|c a IH]; intros Ha; [reflexivity|].
  change (String c a +:+ b) with (String c (a +:+ b)).
  simpl in *. destruct (Py.rstrip chars a); [|discriminate].
  destruct (Py.in_chars c chars); [|discriminate].
  apply IH. reflexivity.
Qed.

(** X15: an empty key at the head of the keys leaves no mark: the listing
    is the same as without it, so the text does not tell the two key sets
    apart. *)
Theorem DumpCommand_drops_leading_empty_key (rest : list string)
    (database : KeyValueStore) :
  DumpCommand (fun _ => EmptyString :: rest) database =
  DumpCommand (fun _ => rest) database.
Proof.
  unfold DumpCommand. simpl fold_left. rewrite dump_fold_acc.
  change (EmptyString +:+ EmptyString +:+ ", ") with (", "%string).
  unfold Py.strip. rewrite lstrip_app_all by reflexivity. reflexivity.
Qed.

(** ** main *)

Lemma ProxyClientCommand_no_client_socket_event
    (parse : string -> string * string * string) (now : Z) (srv : backend)
    (sock : client_socket) (command_line addr : string) (port : Z)
    (db : KeyValueStore) :
  List.filter is_client_socket_event
    (trace (snd (run (ProxyClientCommand parse now srv sock command_line
                        addr port) db))) = [].
Proof.
  destruct (parse command_line) as [[cmd name] text] eqn:Hparse.
  pose proof (forward_events_no_client_socket srv command_line addr port) as Hn.
  by_verb Hparse; unfold snd, trace;
    repeat match goal with
      | |- context [List.filter _ (?k :: forward_events ?s ?c ?a ?p ++ ?l)] =>
          change (List.filter is_client_socket_event
                    (k :: forward_events s c a p ++ l))
            with (List.filter is_client_socket_event
                    (forward_events s c a p ++ l))
      | |- context [List.filter _ (?k :: forward_events ?s ?c ?a ?p)] =>
          change (List.filter is_client_socket_event
                    (k :: forward_events s c a p))
            with (List.filter is_client_socket_event (forward_events s c a p))
      end;
    rewrite ?List.filter_app, ?Hn; reflexivity.
Qed.

Lemma serve_client_socket_events
    (parse : string -> string * string * string) (c : connection)
    (db : KeyValueStore) :
  List.filter is_client_socket_event (trace (snd (run (serve parse c) db))) =
    [Accepted; ClientClose].
Proof.
  rewrite serve_run.
  pose proof (ProxyClientCommand_no_client_socket_event parse (arrival c)
                (upstream c) (client c) (request c) SERVER_ADDRESS SERVER_PORT
                db) as Hn.
  destruct (run _ db) as [r w]. simpl in *.
  rewrite List.filter_app, Hn. reflexivity.
Qed.

Lemma accept_loop_client_sockets
    (parse : string -> string * string * string) (conns : list connection)
    (n : nat) (db : KeyValueStore) :
  exists k,
    List.filter is_client_socket_event
      (map snd (snd (accept_loop parse n conns db))) = accept_close k /\
    match fst (fst (accept_loop parse n conns db)) with
    | Listening => k = length conns
    | Died _ => (1 <= k <= length conns)%nat
    end.
Proof.
  revert n db. induction conns as [|c rest IH]; intros n db.
  - exists 0%nat. split; reflexivity.
  - cbn [accept_loop].
    pose proof (serve_client_socket_events parse c db) as Hc.
    destruct (run (serve parse c) db) as [[[]|e] w]; simpl in Hc.
    + destruct (IH (S n) (cache w)) as (k & Hk & Hst).
      destruct (accept_loop parse (S n) rest (cache w)) as [[st db'] later].
      simpl in *. exists (S k). split.
      * rewrite map_app, List.filter_app, Hk.
        rewrite map_map. simpl. rewrite map_id, Hc. reflexivity.
      * destruct st; simpl; lia.
    + exists 1%nat. simpl. split; [|lia].
      rewrite map_map. simpl. rewrite map_id, Hc. reflexivity.
Qed.

(** X16: in the trace of main, accepting a client and closing its socket
    strictly alternate, starting with an accept and ending with a close:
    every accepted client socket is closed before the next client is
    accepted and also when handling raised.  While main still listens all
    clients were served; when it has died at least one was. *)
Theorem every_accepted_client_is_closed
    (parse : string -> string * string * string) (conns : list connection) :
  exists k,
    List.filter is_client_socket_event (map snd (snd (main parse conns))) =
      accept_close k /\
    match fst (fst (main parse conns)) with
    | Listening => k = length conns
    | Died _ => (1 <= k <= length conns)%nat
    end.
Proof. apply accept_loop_client_sockets. Qed.

Lemma accept_loop_cache_origin
    (parse : string -> string * string * string) (conns : list connection)
    (n : nat) (db : KeyValueStore) (k : string) (e : CacheEntry) :
  snd (fst (accept_loop parse n conns db)) !! k = Some e ->
  db !! k = Some e \/
  exists c,
    In c conns /\ parse (request c) = ("PUT"%string, k, value e) /\
    writtenAt e = arrival c.
Proof.
  revert n db. induction conns as [|c rest IH]; intros n db Hk.
  - left. exact Hk.
  - cbn [accept_loop] in Hk. rewrite serve_run in Hk.
    destruct (parse (request c)) as [[cmd name] text] eqn:Hc.
    pose proof (ProxyClientCommand_cache parse (arrival c) (upstream c)
                  (client c) _ _ _ _ SERVER_ADDRESS SERVER_PORT db Hc)
      as Hcache.
    assert (Hstep : forall e',
               cache (snd (run (ProxyClientCommand parse (arrival c)
                                  (upstream c) (client c) (request c)
                                  SERVER_ADDRESS SERVER_PORT) db)) !! k =
                 Some e' ->
               db !! k = Some e' \/
               (parse (request c) = ("PUT"%string, k, value e') /\
                writtenAt e' = arrival c)).
    { intros e'. rewrite Hcache.
      destruct (String.eqb_spec cmd "PUT") as [->|Hne]; [|auto].
      unfold StoreValue. rewrite lookup_insert. case_decide as Hkey.
      - intros [= <-]. right. subst name. simpl. split; [exact Hc|reflexivity].
      - auto. }
    destruct (run _ db) as [[[]|ex] w]; simpl in *.
    + destruct (accept_loop parse (S n) rest (cache w)) as [[st db'] later] eqn:Hrest.
      simpl in Hk.
      specialize (IH (S n) (cache w)). rewrite Hrest in IH. simpl in IH.
      destruct (IH Hk) as [Hw|(c' & Hin & Hp & Ht)].
      * destruct (Hstep e Hw) as [Hdb|[Hp Ht]]; [left; exact Hdb|].
        right. exists c. split; [left; reflexivity|]. split; assumption.
      * right. exists c'. split; [right; exact Hin|]. split; assumption.
    + destruct (Hstep e Hk) as [Hdb|[Hp Ht]]; [left; exact Hdb|].
      right. exists c. split; [left; reflexivity|]. split; assumption.
Qed.

(** X18: every entry of the cache main ends with was stored by the PUT of
    one of the clients: its key and value are that PUT's key and payload
    and its timestamp is the time that client was handled.  Nothing a
    backend answered is ever in the cache. *)
Theorem cache_holds_only_PUT_payloads
    (parse : string -> string * string * string) (conns : list connection)
    (st : status) (db : KeyValueStore) (tr : list (nat * event))
    (k : string) (e : CacheEntry) :
  main parse conns = (st, db, tr) ->
  db !! k = Some e ->
  exists c,
    In c conns /\ parse (request c) = ("PUT"%string, k, value e) /\
    writtenAt e = arrival c.
Proof.
  intros Hmain Hk.
  destruct (accept_loop_cache_origin parse conns 0 ∅ k e) as [Hempty|Hput].
  - unfold main in Hmain. rewrite Hmain. exact Hk.
  - rewrite lookup_empty in Hempty. discriminate.
  - exact Hput.
Qed.

Lemma cache_holds_only_PUT_payloads_witness :
  snd (fst (main library.ParseCommand put_then_get)) !! "y" =
    Some {| value := "hello world"; writtenAt := 0 |} /\
  exists c,
    In c put_then_get /\
    library.ParseCommand (request c) =
      ("PUT"%string, "y"%string, "hello world"%string) /\
    arrival c = 0.
Proof.
  assert (Hk : snd (fst (main library.ParseCommand put_then_get)) !! "y" =
                 Some {| value := "hello world"; writtenAt := 0 |})
    by (vm_compute; reflexivity).
  split; [exact Hk|].
  destruct (cache_holds_only_PUT_payloads library.ParseCommand put_then_get
              (fst (fst (main library.ParseCommand put_then_get)))
              (snd (fst (main library.ParseCommand put_then_get)))
              (snd (main library.ParseCommand put_then_get))
              "y" {| value := "hello world"; writtenAt := 0 |})
    as (c & Hin & Hp & Ht).
  - vm_compute. reflexivity.
  - exact Hk.
  - exists c. split; [exact Hin|]. split; [exact Hp|]. symmetry. exact Ht.
Defined.


(** ** What reaches the client *)

(** X19: whatever the command, the backend and the client, at most two
    writes are made on the client socket, and each of them ends with the
    newline SendText appends: nothing is written to the client except
    through SendText. *)
Theorem client_writes_are_newline_terminated
    (parse : string -> string * string * string) (now : Z) (srv : backend)
    (sock : client_socket) (command_line addr : string) (port : Z)
    (db : KeyValueStore) :
  let sent := client_lines
                (trace (snd (run (ProxyClientCommand parse now srv sock
                                    command_line addr port) db))) in
  (length sent <= 2)%nat /\
  Forall (fun data => Py.last_char data = Some Py.LF) sent.
Proof.
  destruct (parse command_line) as [[cmd name] text] eqn:Hparse.
  pose proof (forward_events_no_reply srv command_line addr port) as Hnr.
  by_verb Hparse; unfold snd, trace;
    repeat match goal with
      | |- context [client_lines (?k :: forward_events ?s ?c ?a ?p ++ ?l)] =>
          change (client_lines (k :: forward_events s c a p ++ l))
            with (client_lines (forward_events s c a p ++ l))
      | |- context [client_lines (?k :: forward_events ?s ?c ?a ?p)] =>
          change (client_lines (k :: forward_events s c a p))
            with (client_lines (forward_events s c a p))
      end;
    rewrite ?client_lines_app, ?Hnr; cbn [client_lines app length];
    (split; [lia|]);
    repeat (constructor; try apply last_char_app_NL).
Qed.

(** ** PUT and DUMP on plain lines *)

(** X20: for every PUT, whatever the cache held and whatever the backend
    and the client do, the payload is stored under the key first and then
    exactly one backend socket is opened and connected to the given server,
    on which nothing but the original command line is ever sent, and no
    further call is made on the cache.  When the backend answers and both
    the command line and the stripped answer are plain ASCII, the calls are
    exactly: store, open, connect, send of the command line, read, close,
    and one write to the client of the answer with its newline; handling
    returns when the client takes that write. *)
Theorem PUT_stores_then_forwards_once
    (parse : string -> string * string * string) (now : Z) (srv : backend)
    (sock : client_socket) (command_line name text addr : string) (port : Z)
    (db : KeyValueStore) (r : outcome unit) (w : world) :
  parse command_line = ("PUT", name, text) ->
  run (ProxyClientCommand parse now srv sock command_line addr port) db =
    (r, w) ->
  cache w = StoreValue name text now db /\
  (exists rest,
      trace w = CacheStore name text :: SockOpen :: SockConnect addr port :: rest /\
      opened rest = 0%nat /\ List.filter is_cache_event rest = [] /\
      forall data, In (SockSendAll data) rest -> data = command_line) /\
  (forall raw,
      srv = replying raw ->
      Py.is_ascii command_line = true ->
      Py.is_ascii (Py.strip Py.NL raw) = true ->
      r = (if sock 0%nat then Returns tt else Raises SocketError) /\
      trace w = [CacheStore name text; SockOpen; SockConnect addr port;
                 SockSendAll command_line; SockReadCommand; SockClose;
                 ClientSend (Py.strip Py.NL raw +:+ Py.NL)]).
Proof.
  intros Hparse. rewrite (PUT_run _ _ _ _ _ _ _ _ _ _ Hparse).
  unfold forward_result, forward_events, reply_result, reply_events.
  destruct srv as [[] [] [raw'|]]; cbn [accepts receives responds];
    destruct (Py.is_ascii command_line) eqn:Hcl;
    try destruct (Py.is_ascii (Py.strip Py.NL raw')) eqn:Hraw;
    try destruct (sock 0%nat);
    intros Hrun; apply pair_equal_spec in Hrun as [<- <-];
    cbn [cache trace app];
    (split; [reflexivity|]);
    (split;
     [eexists; split; [reflexivity|split; [reflexivity|split; [reflexivity|]]];
      intros data Hin;
      repeat (destruct Hin as [Hin|Hin]; [congruence|]); contradiction|]);
    intros raw [= ->] Ha Hb; try discriminate; try congruence;
    split; reflexivity.
Qed.

Lemma PUT_stores_then_forwards_once_witness :
  exists r w,
    run (ProxyClientCommand library.ParseCommand 0 (replying (ln "OK"))
           connected (ln "PUT y hello world") SERVER_ADDRESS SERVER_PORT) ∅ =
      (r, w) /\
    cache w !! "y" = Some {| value := "hello world"; writtenAt := 0 |} /\
    r = Returns tt /\
    client_lines (trace w) = [ln "OK"].
Proof.
  eexists; eexists. split; [vm_compute; reflexivity|].
  match goal with
  | |- ?w.(cache) !! _ = _ /\ ?r = _ /\ _ =>
      destruct (PUT_stores_then_forwards_once library.ParseCommand 0
                  (replying (ln "OK")) connected (ln "PUT y hello world") "y"
                  "hello world" SERVER_ADDRESS SERVER_PORT ∅ r w)
        as (Hc & _ & Hok); [reflexivity|vm_compute; reflexivity|]
  end.
  split; [rewrite Hc; apply lookup_insert_eq|].
  destruct (Hok (ln "OK") eq_refl) as [Hr Htr]; [reflexivity|reflexivity|].
  split; [exact Hr|rewrite Htr; reflexivity].
Defined.

(** X21: handling a DUMP makes no call on the cache and leaves it as it
    was, and outcome and trace are the same whatever the cache holds and
    whatever the clock says.  When the backend answers and both the command
    line and the stripped answer are plain ASCII, the calls are exactly:
    open, connect, send of the command line, read, close, and one write to
    the client of the answer with its newline; handling returns when the
    client takes that write. *)
Theorem DUMP_bypasses_cache
    (parse : string -> string * string * string) (now : Z) (srv : backend)
    (sock : client_socket) (command_line name text addr : string) (port : Z)
    (db : KeyValueStore) (r : outcome unit) (w : world) :
  parse command_line = ("DUMP", name, text) ->
  run (ProxyClientCommand parse now srv sock command_line addr port) db =
    (r, w) ->
  cache w = db /\
  List.filter is_cache_event (trace w) = [] /\
  (forall (now' : Z) (db' : KeyValueStore),
      run (ProxyClientCommand parse now' srv sock command_line addr port) db' =
        (r, {| cache := db'; trace := trace w |})) /\
  (forall raw,
      srv = replying raw ->
      Py.is_ascii command_line = true ->
      Py.is_ascii (Py.strip Py.NL raw) = true ->
      r = (if sock 0%nat then Returns tt else Raises SocketError) /\
      trace w = [SockOpen; SockConnect addr port; SockSendAll command_line;
                 SockReadCommand; SockClose;
                 ClientSend (Py.strip Py.NL raw +:+ Py.NL)]).
Proof.
  intros Hparse Hrun.
  assert (Hany : forall now' db',
             run (ProxyClientCommand parse now' srv sock command_line
                    addr port) db' =
               (r, {| cache := db'; trace := trace w |})).
  { intros now' db'. rewrite (DUMP_run _ now' _ _ _ _ _ _ _ db' Hparse).
    rewrite (DUMP_run _ _ _ _ _ _ _ _ _ _ Hparse) in Hrun.
    destruct (forward_result srv command_line) as [res|e];
      apply pair_equal_spec in Hrun as [<- <-]; reflexivity. }
  rewrite (DUMP_run _ _ _ _ _ _ _ _ _ _ Hparse) in Hrun.
  pose proof (forward_events_no_cache srv command_line addr port) as Hnc.
  split; [|split; [|split; [exact Hany|]]].
  - destruct (forward_result srv command_line) as [res|e];
      apply pair_equal_spec in Hrun as [_ <-]; reflexivity.
  - destruct (forward_result srv command_line) as [res|e];
      apply pair_equal_spec in Hrun as [_ <-];
      unfold trace; rewrite ?List.filter_app, ?reply_events_no_cache, Hnc;
      reflexivity.
  - intros raw -> Hcl Hraw. revert Hrun.
    unfold forward_result, forward_events, reply_result, reply_events.
    simpl. rewrite Hcl, Hraw.
    intros Hrun. apply pair_equal_spec in Hrun as [<- <-]. split; reflexivity.
Qed.

Lemma DUMP_bypasses_cache_witness :
  exists r w,
    run (ProxyClientCommand library.ParseCommand 0 (replying (ln "x, y"))
           connected (ln "DUMP") SERVER_ADDRESS SERVER_PORT)
        (StoreValue "x" "5" 0 ∅) = (r, w) /\
    cache w = StoreValue "x" "5" 0 ∅ /\
    r = Returns tt /\
    client_lines (trace w) = [ln "x, y"].
Proof.
  eexists; eexists. split; [vm_compute; reflexivity|].
  match goal with
  | |- ?w.(cache) = _ /\ ?r = _ /\ _ =>
      destruct (DUMP_bypasses_cache library.ParseCommand 0
                  (replying (ln "x, y")) connected (ln "DUMP") "" ""
                  SERVER_ADDRESS SERVER_PORT (StoreValue "x" "5" 0 ∅) r w)
        as (Hc & _ & _ & Hok); [reflexivity|vm_compute; reflexivity|]
  end.
  split; [exact Hc|].
  destruct (Hok (ln "x, y") eq_refl) as [Hr Htr]; [reflexivity|reflexivity|].
  split; [exact Hr|rewrite Htr; reflexivity].
Defined.
